(** * NativeAuthenticator: lockout tracker, approval tokens, signup workflow

    A shallow embedding of [nativeauthenticator/nativeauthenticator.py] and
    [nativeauthenticator/handlers.py].  Python objects are records, [dict]s
    are finite maps, [None]-returning methods return [option], raised
    exceptions are the [Raise] branch of [result], and every reading of the
    wall clock is an explicit argument. *)

From Stdlib Require Import ZArith String Ascii List Bool Lia.
From Stdlib Require DecimalString DecimalZ.
From stdpp Require Import base option gmap strings.

Open Scope string_scope.
Open Scope Z_scope.

(** ** Python's [datetime] and [timedelta] *)

Module PyDatetime.

(** A [datetime] is a point of the time line, counted in microseconds. *)
Abbreviation datetime := Z (only parsing).

(** [timedelta] keeps the three normalised fields of CPython:
    [0 <= seconds < 86400] and [0 <= microseconds < 1000000]. *)
Record timedelta := mk_timedelta {
  days : Z;
  seconds : Z;
  microseconds : Z
}.

Definition US_PER_SECOND : Z := 1000000.
Definition SECONDS_PER_DAY : Z := 86400.
Definition US_PER_DAY : Z := SECONDS_PER_DAY * US_PER_SECOND.

(** Normalisation of a signed microsecond count (floor division, as
    [divmod] does). *)
Definition timedelta_of_us (us : Z) : timedelta :=
  let r := us mod US_PER_DAY in
  {| days := us / US_PER_DAY;
     seconds := r / US_PER_SECOND;
     microseconds := r mod US_PER_SECOND |}.

Definition total_us (td : timedelta) : Z :=
  (days td * SECONDS_PER_DAY + seconds td) * US_PER_SECOND + microseconds td.

(** [a - b] on two datetimes. *)
Definition sub (a b : datetime) : timedelta := timedelta_of_us (a - b).

(** [a + td]. *)
Definition add (a : datetime) (td : timedelta) : datetime := a + total_us td.

(** [timedelta(minutes=m)]. *)
Definition minutes (m : Z) : timedelta := timedelta_of_us (m * 60 * US_PER_SECOND).

(** [timedelta(seconds=s)]. *)
Definition of_seconds (s : Z) : timedelta := timedelta_of_us (s * US_PER_SECOND).

End PyDatetime.

Import PyDatetime.

(** ** Exceptions and results *)

Inductive exn :=
  | ValueError (msg : string)
  | AttributeError (msg : string)
  | SMTPException (msg : string).

Inductive result (A : Type) :=
  | Return (a : A)
  | Raise (e : exn).
Arguments Return {A} a.
Arguments Raise {A} e.

(** ** The data model *)

(** The row class [UserInfo] of [orm.py], by the attributes the two source
    files read and write. *)
Record UserInfo := mk_UserInfo {
  username : string;
  password : string;
  is_authorized : bool;
  email : string;
  has_2fa : bool;
  otp_secret : string
}.

(** One value of the [login_attempts] dict: [{'count': .., 'time': ..}]. *)
Record Attempt := mk_Attempt {
  count : Z;
  time : datetime
}.

(** [self_approval_server]: [{'url': .., 'usr': .., 'pwd': ..}]. *)
Record SmtpServer := mk_SmtpServer {
  url : string;
  usr : string;
  pwd : string
}.

(** The authenticator object: its configuration traits, the in-memory
    [login_attempts] dict and the user table reached through [self.db].
    A compiled [re.Pattern] is kept as its [match] predicate. *)
Record NativeAuthenticator := mk_NativeAuthenticator {
  self_approval_server : option SmtpServer;
  secret_key : string;
  allow_self_approval_for : option (string -> bool);
  self_approval_email : string * string * string;
  check_common_password : bool;
  minimum_password_length : Z;
  allowed_failed_logins : Z;
  seconds_before_next_try : Z;
  enable_signup : bool;
  open_signup : bool;
  ask_email_on_signup : bool;
  admin_users : gset string;
  allowed_users : gset string;
  COMMON_PASSWORDS : gset string;
  login_attempts : gmap string Attempt;
  db : gmap string UserInfo
}.

Definition set_login_attempts (m : gmap string Attempt) (self : NativeAuthenticator)
  : NativeAuthenticator :=
  {| self_approval_server := self_approval_server self;
     secret_key := secret_key self;
     allow_self_approval_for := allow_self_approval_for self;
     self_approval_email := self_approval_email self;
     check_common_password := check_common_password self;
     minimum_password_length := minimum_password_length self;
     allowed_failed_logins := allowed_failed_logins self;
     seconds_before_next_try := seconds_before_next_try self;
     enable_signup := enable_signup self;
     open_signup := open_signup self;
     ask_email_on_signup := ask_email_on_signup self;
     admin_users := admin_users self;
     allowed_users := allowed_users self;
     COMMON_PASSWORDS := COMMON_PASSWORDS self;
     login_attempts := m;
     db := db self |}.

Definition set_db (d : gmap string UserInfo) (self : NativeAuthenticator)
  : NativeAuthenticator :=
  {| self_approval_server := self_approval_server self;
     secret_key := secret_key self;
     allow_self_approval_for := allow_self_approval_for self;
     self_approval_email := self_approval_email self;
     check_common_password := check_common_password self;
     minimum_password_length := minimum_password_length self;
     allowed_failed_logins := allowed_failed_logins self;
     seconds_before_next_try := seconds_before_next_try self;
     enable_signup := enable_signup self;
     open_signup := open_signup self;
     ask_email_on_signup := ask_email_on_signup self;
     admin_users := admin_users self;
     allowed_users := allowed_users self;
     COMMON_PASSWORDS := COMMON_PASSWORDS self;
     login_attempts := login_attempts self;
     db := d |}.

Definition set_ask_email_on_signup (b : bool) (self : NativeAuthenticator)
  : NativeAuthenticator :=
  {| self_approval_server := self_approval_server self;
     secret_key := secret_key self;
     allow_self_approval_for := allow_self_approval_for self;
     self_approval_email := self_approval_email self;
     check_common_password := check_common_password self;
     minimum_password_length := minimum_password_length self;
     allowed_failed_logins := allowed_failed_logins self;
     seconds_before_next_try := seconds_before_next_try self;
     enable_signup := enable_signup self;
     open_signup := open_signup self;
     ask_email_on_signup := b;
     admin_users := admin_users self;
     allowed_users := allowed_users self;
     COMMON_PASSWORDS := COMMON_PASSWORDS self;
     login_attempts := login_attempts self;
     db := db self |}.

(** The three traits read by the password-strength check. *)
Definition set_password_policy (min_len : Z) (check : bool) (common : gset string)
    (self : NativeAuthenticator) : NativeAuthenticator :=
  {| self_approval_server := self_approval_server self;
     secret_key := secret_key self;
     allow_self_approval_for := allow_self_approval_for self;
     self_approval_email := self_approval_email self;
     check_common_password := check;
     minimum_password_length := min_len;
     allowed_failed_logins := allowed_failed_logins self;
     seconds_before_next_try := seconds_before_next_try self;
     enable_signup := enable_signup self;
     open_signup := open_signup self;
     ask_email_on_signup := ask_email_on_signup self;
     admin_users := admin_users self;
     allowed_users := allowed_users self;
     COMMON_PASSWORDS := common;
     login_attempts := login_attempts self;
     db := db self |}.

(** ** The lockout tracker *)

(** [add_login_attempt]: a stored entry is a non-empty dict, hence truthy,
    so the first branch is taken exactly when the key is absent. *)
Definition add_login_attempt (self : NativeAuthenticator) (username : string)
    (now : datetime) : NativeAuthenticator :=
  match login_attempts self !! username with
  | None =>
      set_login_attempts
        (<[username := {| count := 1; time := now |}]> (login_attempts self)) self
  | Some a =>
      set_login_attempts
        (<[username := {| count := count a + 1; time := now |}]> (login_attempts self))
        self
  end.

(** [can_try_to_login_again]: the comparison reads the [seconds] field of
    the difference. *)
Definition can_try_to_login_again (self : NativeAuthenticator) (username : string)
    (now : datetime) : bool :=
  match login_attempts self !! username with
  | None => true
  | Some a =>
      let time_last_attempt := PyDatetime.sub now (time a) in
      if seconds time_last_attempt >? seconds_before_next_try self then true
      else false
  end.

Definition is_blocked (self : NativeAuthenticator) (username : string)
    (now : datetime) : bool :=
  match login_attempts self !! username with
  | None => false
  | Some logins =>
      if count logins <? allowed_failed_logins self then false
      else if can_try_to_login_again self username now then false
      else true
  end.

Definition successful_login (self : NativeAuthenticator) (username : string)
  : NativeAuthenticator :=
  match login_attempts self !! username with
  | Some _ => set_login_attempts (delete username (login_attempts self)) self
  | None => self
  end.

(** Consecutive failures of one user, oldest first. *)
Definition record_failures (self : NativeAuthenticator) (username : string)
    (times : list datetime) : NativeAuthenticator :=
  fold_left (fun s t => add_login_attempt s username t) times self.

(** The [data] dict of a login request. *)
Record LoginData := mk_LoginData {
  data_username : string;
  data_password : string;
  data_2fa : option string
}.

(** The keyword arguments the signup handler passes on. *)
Record SignupKwargs := mk_SignupKwargs {
  kw_email : string;
  kw_has_2fa : bool
}.

(** The keyword arguments collected in [infos]. *)
Record Infos := mk_Infos {
  i_username : string;
  i_password : string;
  i_email : string;
  i_has_2fa : bool;
  i_is_authorized : bool
}.

(** The traits of the authenticator that only the signup pages read
    ([recaptcha_key], [recaptcha_secret], [tos], [allow_2fa]), kept in a
    record of their own beside [NativeAuthenticator]; the three strings
    default to [None]. *)
Record SignupTraits := mk_SignupTraits {
  recaptcha_key : option string;
  recaptcha_secret : option string;
  tos : option string;
  allow_2fa : bool
}.

(** The body of a signup request, field by field; [None] is a field the
    body does not have.  [body_recaptcha] is the value of
    ['g-recaptcha-response'] as [get_body_argument] returns it with
    [strip=True]. *)
Record SignupBody := mk_SignupBody {
  body_username : option string;
  body_pw : option string;
  body_email : option string;
  body_2fa : option string;
  body_recaptcha : option string
}.

(** The arguments handed to the template [signup.html]; the two that
    [SignUpHandler.get] does not pass, and the value [''] of
    [two_factor_auth_user], are [None]. *)
Record SignupTemplate := mk_SignupTemplate {
  t_ask_email : bool;
  t_result_message : option string;
  t_alert : option string;
  t_two_factor_auth : bool;
  t_two_factor_auth_user : option bool;
  t_two_factor_auth_value : string;
  t_recaptcha_key : option string;
  t_tos : option string
}.

(** What the signup handler answers: the status of a raised
    [web.HTTPError] (404, or the 400 of tornado's [MissingArgumentError]),
    or the rendered page. *)
Inductive signup_response :=
  | Signup_HTTPError (status : Z)
  | Signup_rendered (page : SignupTemplate).

(** ** Collaborators outside the two source files *)

(** The object signed into an approval URL:
    [{"username": username, "expire": when.isoformat()}]. *)
Record Payload := mk_Payload {
  p_username : string;
  p_expire : string
}.

(** What [validate_slug] returns: the same object with ["expire"] replaced
    by the parsed datetime. *)
Record SlugData := mk_SlugData {
  d_username : string;
  d_expire : datetime
}.

Record EmailMessage := mk_EmailMessage {
  msg_From : string;
  msg_Subject : string;
  msg_Content : string;
  msg_To : string
}.

(** The two ways [send_approval_email] opens a session. *)
Inductive SmtpSession :=
  | SMTP_SSL (server : SmtpServer)
  | SMTP_localhost.

(** Everything the two files call without defining it: the base class
    [jupyterhub.auth.Authenticator], [bcrypt], the methods of
    [orm.UserInfo], [django.core.signing.Signer], [datetime]'s ISO format,
    [str.format] and [smtplib]. *)
Class Host := {
  (* jupyterhub.auth.Authenticator *)
  normalize_username : string -> string;
  base_validate_username : string -> bool;
  (* bcrypt.hashpw(pw, salt) *)
  hashpw : string -> string -> string;
  (* orm.UserInfo *)
  is_valid_password : UserInfo -> string -> bool;
  is_valid_token : UserInfo -> option string -> bool;
  email_accepted : string -> bool;
  (* django.core.signing.Signer(key): sign_object, unsign_object
     ([None] stands for BadSignature) *)
  sign_object : string -> Payload -> string;
  unsign_object : string -> string -> option Payload;
  (* datetime.isoformat, datetime.fromisoformat ([None]: ValueError) *)
  isoformat : datetime -> string;
  fromisoformat : string -> option datetime;
  (* template.format(approval_url=url) *)
  format_approval_url : string -> string -> string;
  (* smtplib: open the session, log in, send_message, quit *)
  smtp_deliver : SmtpSession -> EmailMessage -> result unit
}.

(** The documented contracts of the signer and of the ISO format: what was
    signed with a key unsigns with that key, and [fromisoformat] inverts
    [isoformat]. *)
Class HostLaws (H : Host) := {
  unsign_sign : forall key obj, unsign_object key (sign_object key obj) = Some obj;
  fromisoformat_isoformat : forall d, fromisoformat (isoformat d) = Some d
}.

(** ** String helpers *)

(** [c in s] for a one-character [c]. *)
Fixpoint contains_char (c : ascii) (s : string) : bool :=
  match s with
  | EmptyString => false
  | String d s' => if Ascii.eqb c d then true else contains_char c s'
  end.

(** The remainder of [s] after the literal prefix [p]: the route of
    [get_handlers] hands the handler what follows ["/confirm/"]. *)
Fixpoint strip_prefix (p s : string) : option string :=
  match p with
  | EmptyString => Some s
  | String c p' =>
      match s with
      | EmptyString => None
      | String d s' => if Ascii.eqb c d then strip_prefix p' s' else None
      end
  end.

(** [len(s)]. *)
Definition len (s : string) : Z := Z.of_nat (String.length s).

(** ['{}'.format(n)] for an integer. *)
Definition str_of_int (n : Z) : string :=
  DecimalString.NilEmpty.string_of_int (Z.to_int n).

(** ** The authenticator's methods *)

Section Authenticator.

Context {H : Host}.

(** Modelled from the spec: [UserInfo.find] of [orm.py] (not among the
    sources) is the record store's [FindByUsername(username) ->
    UserRecord|absent]; the table is keyed by its unique username. *)
Definition UserInfo_find (table : gmap string UserInfo) (name : string)
  : option UserInfo :=
  table !! name.

(** Modelled from the spec: [UserInfo.change_authorization] of [orm.py]
    (not among the sources) is the record-store update that marks the
    account authorized; it is only reached on a record that is not yet
    authorized. *)
Definition UserInfo_change_authorization (table : gmap string UserInfo)
    (name : string) : gmap string UserInfo :=
  match table !! name with
  | Some u =>
      <[name := {| username := username u; password := password u;
                   is_authorized := true; email := email u;
                   has_2fa := has_2fa u; otp_secret := otp_secret u |}]> table
  | None => table
  end.

(** Modelled from the spec: the constructor of [orm.UserInfo] (not among
    the sources) copies the attributes it is given and attaches an OTP
    secret at creation time; [None] stands for the [AssertionError] that
    [create_user] catches, raised by the record's email validator. *)
Definition UserInfo_init (infos : Infos) (otp : string) : option UserInfo :=
  if email_accepted (i_email infos) then
    Some {| username := i_username infos; password := i_password infos;
            is_authorized := i_is_authorized infos; email := i_email infos;
            has_2fa := i_has_2fa infos; otp_secret := otp |}
  else None.

Definition get_user (self : NativeAuthenticator) (name : string) : option UserInfo :=
  UserInfo_find (db self) (normalize_username name).

Definition user_exists (self : NativeAuthenticator) (name : string) : bool :=
  match get_user self name with
  | Some _ => true
  | None => false
  end.

(** [authenticate]: [t_blocked] is the clock read by [is_blocked],
    [t_failed] the one read by [add_login_attempt]. *)
Definition authenticate (self : NativeAuthenticator) (data : LoginData)
    (t_blocked t_failed : datetime) : option string * NativeAuthenticator :=
  let name := normalize_username (data_username data) in
  let pw := data_password data in
  match get_user self name with
  | None => (None, self)
  | Some user =>
      if negb (allowed_failed_logins self =? 0) && is_blocked self name t_blocked
      then (None, self)
      else
        let validations :=
          ([is_authorized user; is_valid_password user pw]
           ++ (if has_2fa user then [is_valid_token user (data_2fa data)]
               else []))%list in
        if forallb (fun b => b) validations
        then (Some name, successful_login self name)
        else (None, add_login_attempt self name t_failed)
  end.

Definition is_password_common (self : NativeAuthenticator) (pw : string) : bool :=
  bool_decide (pw ∈ COMMON_PASSWORDS self).

Definition is_password_strong (self : NativeAuthenticator) (pw : string) : bool :=
  let checks :=
    ([minimum_password_length self <=? len pw]
     ++ (if check_common_password self then [negb (is_password_common self pw)]
         else []))%list in
  forallb (fun b => b) checks.

Definition validate_username (self : NativeAuthenticator) (name : string) : bool :=
  if existsb (fun c => contains_char c name) ["," ; " "]%char then false
  else base_validate_username name.

Definition generate_approval_url (self : NativeAuthenticator) (name : string)
    (when : option datetime) (now : datetime) : string :=
  let when :=
    match when with
    | None => PyDatetime.add now (PyDatetime.minutes 15)
    | Some w => w
    end in
  let u := sign_object (secret_key self)
             {| p_username := name; p_expire := isoformat when |} in
  "/confirm/" ++ u.

Definition send_approval_email (self : NativeAuthenticator) (dest url : string)
  : result unit :=
  let '(from, subject, template) := self_approval_email self in
  let msg := {| msg_From := from; msg_Subject := subject;
                msg_Content := format_approval_url template url;
                msg_To := dest |} in
  match self_approval_server self with
  | Some server => smtp_deliver (SMTP_SSL server) msg
  | None => smtp_deliver SMTP_localhost msg
  end.

(** [create_user]: [salt] is the value of [bcrypt.gensalt()], [otp] the
    secret drawn by the record constructor, [now] the clock read by
    [generate_approval_url].  The second component is the authenticator as
    the call leaves it, whether it returns or raises. *)
Definition create_user (self : NativeAuthenticator) (name pw : string)
    (kwargs : SignupKwargs) (salt otp : string) (now : datetime)
  : result (option UserInfo) * NativeAuthenticator :=
  let name := normalize_username name in
  if user_exists self name then (Return None, self)
  else if negb (is_password_strong self pw) || negb (validate_username self name)
  then (Return None, self)
  else if negb (enable_signup self) then (Return None, self)
  else
    let encoded_pw := hashpw pw salt in
    let authed := admin_users self ∪ allowed_users self in
    let infos :=
      {| i_username := name; i_password := encoded_pw;
         i_email := kw_email kwargs; i_has_2fa := kw_has_2fa kwargs;
         i_is_authorized :=
           if open_signup self || bool_decide (name ∈ authed) then true
           else false |} in
    match UserInfo_init infos otp with
    | None => (Return None, self)
    | Some user_info =>
        let sent :=
          match allow_self_approval_for self with
          | Some pattern =>
              if pattern (email user_info) then
                let url := generate_approval_url self name None now in
                send_approval_email self (email user_info) url
              else Return tt
          | None => Return tt
          end in
        match sent with
        | Raise e => (Raise e, self)
        | Return _ =>
            (Return (Some user_info),
             set_db (<[name := user_info]> (db self)) self)
        end
    end.

Definition change_password (self : NativeAuthenticator) (name new_password salt : string)
  : result unit * NativeAuthenticator :=
  match get_user self name with
  | None =>
      (Raise (AttributeError "'NoneType' object has no attribute 'password'"), self)
  | Some user =>
      let user' :=
        {| username := username user; password := hashpw new_password salt;
           is_authorized := is_authorized user; email := email user;
           has_2fa := has_2fa user; otp_secret := otp_secret user |} in
      (Return tt, set_db (<[normalize_username name := user']> (db self)) self)
  end.

(** [setup_self_approval]: the lines written to the log, or the exception,
    and the authenticator as the call leaves it. *)
Definition setup_self_approval (self : NativeAuthenticator)
  : result (list string) * NativeAuthenticator :=
  match allow_self_approval_for self with
  | Some _ =>
      let log :=
        if open_signup self then ["self_approval and open_signup are conflicts!"]
        else [] in
      let self := set_ask_email_on_signup true self in
      if len (secret_key self) <? 8 then
        (Raise (ValueError
           "Secret_key must be a random string of len > 8 when using self_approval"),
         self)
      else (Return log, self)
  | None => (Return [], self)
  end.

(** ** The handlers *)

(** [AuthorizeHandler.validate_slug]; [now] is [datetime.now(tz.utc)]. *)
Definition validate_slug (slug key : string) (now : datetime) : result SlugData :=
  match unsign_object key slug with
  | None => Raise (ValueError "BadSignature")
  | Some obj =>
      match fromisoformat (p_expire obj) with
      | None => Raise (ValueError "Invalid isoformat string")
      | Some expire =>
          if now >? expire then Raise (ValueError "The URL has expired")
          else Return {| d_username := p_username obj; d_expire := expire |}
      end
  end.

(** [AuthorizeHandler.get]: the message handed to the [my_message.html]
    template, or the exception, and the authenticator as the call leaves
    it. *)
Definition AuthorizeHandler_get (self : NativeAuthenticator) (slug : string)
    (now : datetime) : result string * NativeAuthenticator :=
  let msg := "Invalid URL" in
  let attempt :=
    match allow_self_approval_for self with
    | Some _ =>
        match validate_slug slug (secret_key self) now with
        | Return data => Return (Some data)
        | Raise (ValueError _) => Return None
        | Raise e => Raise e
        end
    | None => Return None
    end in
  match attempt with
  | Raise e => (Raise e, self)
  | Return (Some data) =>
      let name := d_username data in
      match UserInfo_find (db self) name with
      | None =>
          (Raise (AttributeError "'NoneType' object has no attribute 'is_authorized'"),
           self)
      | Some usr =>
          if negb (is_authorized usr) then
            (Return (name ++ " has been authorized"),
             set_db (UserInfo_change_authorization (db self) name) self)
          else (Return (name ++ " was already authorized"), self)
      end
  | Return None => (Return msg, self)
  end.

(** [SignUpHandler.get_result_message]; [user] is the truth value of
    what [create_user] returned. *)
Definition get_result_message (self : NativeAuthenticator) (user taken human : bool)
  : string * string :=
  let '(alert, message) :=
    if taken then
      ("alert-danger",
       "Something went wrong. It appears that this username is already in use. Please try again with a different username.")
    else if negb user then
      let pw_len := minimum_password_length self in
      if negb (pw_len =? 0) then
        ("alert-danger",
         "Something went wrong. Be sure your password has at least "
         ++ str_of_int pw_len
         ++ " characters, doesn't have spaces or commas and is not too common.")
      else
        ("alert-danger",
         "Something went wrong. Be sure your password doesn't have spaces or commas and is not too common.")
    else if open_signup self then
      ("alert-success",
       "The signup was successful. You can now go to home page and log in the system")
    else ("alert-info", "Your information has been sent to the admin") in
  if negb human then ("alert-danger", "You failed the reCAPTCHA. Please try again")
  else (alert, message).

(** The answer of Google's [siteverify] to a POST of the secret and the
    response: the truth value of the ["success"] field of its JSON. *)
Variable recaptcha_siteverify : option string -> string -> bool.

(** Truth value of a string trait that defaults to [None]. *)
Definition trait_is_set (t : option string) : bool :=
  match t with
  | Some v => negb (String.eqb v "")
  | None => false
  end.

(** [SignUpHandler.get]. *)
Definition SignUpHandler_get (traits : SignupTraits) (self : NativeAuthenticator)
  : signup_response :=
  if negb (enable_signup self) then Signup_HTTPError 404
  else
    Signup_rendered
      {| t_ask_email := ask_email_on_signup self; t_result_message := None;
         t_alert := None; t_two_factor_auth := allow_2fa traits;
         t_two_factor_auth_user := None; t_two_factor_auth_value := "";
         t_recaptcha_key := recaptcha_key traits; t_tos := tos traits |}.

(** The reCAPTCHA test of [SignUpHandler.post]: the status of the error
    for a body without the response field, or [assume_human] and the lines
    written to the authenticator's log. *)
Definition recaptcha_check (traits : SignupTraits) (body : SignupBody)
  : Z + (bool * list string) :=
  if trait_is_set (recaptcha_key traits) then
    match body_recaptcha body with
    | None => inl 400
    | Some recaptcha_response =>
        if String.eqb recaptcha_response "" then inr (false, [])
        else
          let assume_human :=
            recaptcha_siteverify (recaptcha_secret traits) recaptcha_response in
          if assume_human then inr (true, ["Passed reCaptcha"])
          else inr (false, ["Failed reCaptcha"])
    end
  else inr (true, []).

(** The page that [SignUpHandler.post] renders for [user], [taken] and
    [assume_human]. *)
Definition signup_result_page (traits : SignupTraits) (self : NativeAuthenticator)
    (user : option UserInfo) (taken assume_human : bool) : SignupTemplate :=
  let '(alert, message) :=
    get_result_message self (bool_decide (is_Some user)) taken assume_human in
  {| t_ask_email := ask_email_on_signup self; t_result_message := Some message;
     t_alert := Some alert; t_two_factor_auth := allow_2fa traits;
     t_two_factor_auth_user :=
       match user with Some u => Some (has_2fa u) | None => None end;
     t_two_factor_auth_value :=
       match user with Some u => otp_secret u | None => "" end;
     t_recaptcha_key := recaptcha_key traits; t_tos := tos traits |}.

(** [SignUpHandler.post]: the answer (or the exception that [create_user]
    let through), the authenticator as the call leaves it, and the lines
    written to its log. *)
Definition SignUpHandler_post (traits : SignupTraits) (self : NativeAuthenticator)
    (body : SignupBody) (salt otp : string) (now : datetime)
  : result signup_response * NativeAuthenticator * list string :=
  if negb (enable_signup self) then (Return (Signup_HTTPError 404), self, [])
  else
    match recaptcha_check traits body with
    | inl status => (Return (Signup_HTTPError status), self, [])
    | inr (true, log) =>
        match body_username body, body_pw body with
        | Some name, Some pw =>
            let kwargs :=
              {| kw_email := default "" (body_email body);
                 kw_has_2fa := negb (String.eqb (default "" (body_2fa body)) "") |} in
            let taken := user_exists self name in
            match create_user self name pw kwargs salt otp now with
            | (Raise e, self') => (Raise e, self', log)
            | (Return user, self') =>
                (Return (Signup_rendered (signup_result_page traits self' user taken true)),
                 self', log)
            end
        | _, _ => (Return (Signup_HTTPError 400), self, log)
        end
    | inr (false, log) =>
        (Return (Signup_rendered (signup_result_page traits self None false false)),
         self, log)
    end.

End Authenticator.

(** The two traits of the lockout. *)
Definition set_lockout_policy (allowed window : Z) (self : NativeAuthenticator)
  : NativeAuthenticator :=
  {| self_approval_server := self_approval_server self;
     secret_key := secret_key self;
     allow_self_approval_for := allow_self_approval_for self;
     self_approval_email := self_approval_email self;
     check_common_password := check_common_password self;
     minimum_password_length := minimum_password_length self;
     allowed_failed_logins := allowed;
     seconds_before_next_try := window;
     enable_signup := enable_signup self;
     open_signup := open_signup self;
     ask_email_on_signup := ask_email_on_signup self;
     admin_users := admin_users self;
     allowed_users := allowed_users self;
     COMMON_PASSWORDS := COMMON_PASSWORDS self;
     login_attempts := login_attempts self;
     db := db self |}.

(** The two switches of the signup. *)
Definition set_signup_policy (enabled open : bool) (self : NativeAuthenticator)
  : NativeAuthenticator :=
  {| self_approval_server := self_approval_server self;
     secret_key := secret_key self;
     allow_self_approval_for := allow_self_approval_for self;
     self_approval_email := self_approval_email self;
     check_common_password := check_common_password self;
     minimum_password_length := minimum_password_length self;
     allowed_failed_logins := allowed_failed_logins self;
     seconds_before_next_try := seconds_before_next_try self;
     enable_signup := enabled;
     open_signup := open;
     ask_email_on_signup := ask_email_on_signup self;
     admin_users := admin_users self;
     allowed_users := allowed_users self;
     COMMON_PASSWORDS := COMMON_PASSWORDS self;
     login_attempts := login_attempts self;
     db := db self |}.

(** [self_approval_server]. *)
Definition set_self_approval_server (server : option SmtpServer)
    (self : NativeAuthenticator) : NativeAuthenticator :=
  {| self_approval_server := server;
     secret_key := secret_key self;
     allow_self_approval_for := allow_self_approval_for self;
     self_approval_email := self_approval_email self;
     check_common_password := check_common_password self;
     minimum_password_length := minimum_password_length self;
     allowed_failed_logins := allowed_failed_logins self;
     seconds_before_next_try := seconds_before_next_try self;
     enable_signup := enable_signup self;
     open_signup := open_signup self;
     ask_email_on_signup := ask_email_on_signup self;
     admin_users := admin_users self;
     allowed_users := allowed_users self;
     COMMON_PASSWORDS := COMMON_PASSWORDS self;
     login_attempts := login_attempts self;
     db := db self |}.

(** ** Further handlers and the deletion of a user *)

(** What a handler hands back to the client: a rendered template with the
    [result_message] it was given, a redirect, or the status of a raised
    [web.HTTPError]. *)
Inductive response :=
  | Rendered (template : string) (result_message : option string)
  | Redirect (location : string)
  | HTTPError (status : Z).

Section Handlers.

Context {H : Host}.

(** [super().delete_user(user)] of the base class. *)
Variable base_delete_user : NativeAuthenticator -> string -> NativeAuthenticator.

(** [delete_user]: [name] is [user.name]; the row found by [get_user] is
    deleted from the table, then the base class runs. *)
Definition delete_user (self : NativeAuthenticator) (name : string)
  : NativeAuthenticator :=
  let self' :=
    match get_user self name with
    | Some _ => set_db (delete (normalize_username name) (db self)) self
    | None => self
    end in
  base_delete_user self' name.

(** [DiscardHandler.get] for an administrator: [users] is the hub's
    registry, kept as the set of the names it holds, and [base_url] is
    [self.hub.base_url]. *)
Definition DiscardHandler_get (base_url : string) (self : NativeAuthenticator)
    (users : gset string) (user_name : string)
  : response * NativeAuthenticator * gset string :=
  let '(self', users') :=
    match get_user self user_name with
    | Some user =>
        if negb (is_authorized user) then
          let self' := delete_user self user_name in
          let users' :=
            if bool_decide (user_name ∈ users) then users ∖ {[ user_name ]}
            else users in
          (self', users')
        else (self, users)
    | None => (self, users)
    end in
  (Redirect (base_url ++ "authorize"), self', users').

(** [ChangePasswordAdminHandler.get] for an administrator. *)
Definition ChangePasswordAdminHandler_get (self : NativeAuthenticator)
    (user_name : string) : response :=
  if negb (user_exists self user_name) then HTTPError 404
  else Rendered "change-password.html" None.

(** [ChangePasswordAdminHandler.post] for an administrator. *)
Definition ChangePasswordAdminHandler_post (self : NativeAuthenticator)
    (user_name new_password salt : string) : result response * NativeAuthenticator :=
  match change_password self user_name new_password salt with
  | (Raise e, self') => (Raise e, self')
  | (Return _, self') =>
      (Return (Rendered "change-password.html"
                 (Some ("The password for " ++ user_name
                        ++ " has been changed successfully"))),
       self')
  end.

(** [ChangePasswordHandler.post]; [current_user] is the name of the user
    the request is authenticated as. *)
Definition ChangePasswordHandler_post (self : NativeAuthenticator)
    (current_user new_password salt : string) : result response * NativeAuthenticator :=
  match change_password self current_user new_password salt with
  | (Raise e, self') => (Raise e, self')
  | (Return _, self') =>
      (Return (Rendered "change-password.html"
                 (Some "Your password has been changed successfully")),
       self')
  end.

End Handlers.

(** ** The two decisions of [authenticate], named *)

Section Decisions.

Context {H : Host}.

(** The lockout gate of [authenticate]. *)
Definition gate_closed (self : NativeAuthenticator) (name : string) (t : Z) : bool :=
  negb (allowed_failed_logins self =? 0) && is_blocked self name t.

(** The conjunction of the validations. *)
Definition credentials_ok (user : UserInfo) (data : LoginData) : bool :=
  is_authorized user && is_valid_password user (data_password data)
  && (negb (has_2fa user) || is_valid_token user (data_2fa data)).

End Decisions.

(** The row of [usr] once it is authorized. *)
Definition authorized (usr : UserInfo) : UserInfo :=
  {| username := username usr; password := password usr; is_authorized := true;
     email := email usr; has_2fa := has_2fa usr; otp_secret := otp_secret usr |}.

(** The table files every row under its own username. *)
Definition keyed_by_username (table : gmap string UserInfo) : Prop :=
  forall k u, table !! k = Some u -> username u = k.

(** ** A reference host

    A small executable instance of [Host], used to run the methods on
    concrete requests.  Usernames are lower-cased, a signed object is
    written as [key ++ 1..1 ++ ":" ++ username ++ expire] with one ["1"]
    per character of the username, datetimes are printed in decimal, and
    no SMTP server listens on localhost. *)

Module Reference.

Definition lower_char (c : ascii) : ascii :=
  let n := nat_of_ascii c in
  if ((65 <=? n) && (n <=? 90))%nat then ascii_of_nat (n + 32) else c.

Fixpoint lower (s : string) : string :=
  match s with
  | EmptyString => EmptyString
  | String c s' => String (lower_char c) (lower s')
  end.

Definition ref_validate_username (s : string) : bool :=
  negb (contains_char "/" s) && negb (String.eqb s "").

Definition ref_hashpw (pw salt : string) : string := salt ++ "$" ++ pw.

Definition ref_is_valid_password (u : UserInfo) (pw : string) : bool :=
  match strip_prefix "salt$" (password u) with
  | Some stored => String.eqb stored pw
  | None => false
  end.

Definition ref_is_valid_token (u : UserInfo) (code : option string) : bool :=
  match code with
  | Some c => String.eqb c (otp_secret u)
  | None => false
  end.

Fixpoint unary (n : nat) : string :=
  match n with
  | O => ":"
  | S n' => String "1" (unary n')
  end.

Fixpoint read_unary (s : string) : option (nat * string) :=
  match s with
  | EmptyString => None
  | String c s' =>
      if Ascii.eqb c ":" then Some (O, s')
      else if Ascii.eqb c "1" then
        match read_unary s' with
        | Some (n, rest) => Some (S n, rest)
        | None => None
        end
      else None
  end.

Fixpoint split_at (n : nat) (s : string) : option (string * string) :=
  match n with
  | O => Some (EmptyString, s)
  | S n' =>
      match s with
      | EmptyString => None
      | String c s' =>
          match split_at n' s' with
          | Some (a, b) => Some (String c a, b)
          | None => None
          end
      end
  end.

Definition ref_sign_object (key : string) (obj : Payload) : string :=
  key ++ unary (String.length (p_username obj)) ++ p_username obj ++ p_expire obj.

Definition ref_unsign_object (key signed : string) : option Payload :=
  match strip_prefix key signed with
  | None => None
  | Some body =>
      match read_unary body with
      | None => None
      | Some (n, rest) =>
          match split_at n rest with
          | Some (name, expire) => Some {| p_username := name; p_expire := expire |}
          | None => None
          end
      end
  end.

Definition ref_isoformat (d : datetime) : string :=
  DecimalString.NilEmpty.string_of_int (Z.to_int d).

Definition ref_fromisoformat (s : string) : option datetime :=
  match DecimalString.NilEmpty.int_of_string s with
  | Some i => Some (Z.of_int i)
  | None => None
  end.

Definition ref_smtp_deliver (session : SmtpSession) (msg : EmailMessage) : result unit :=
  match session with
  | SMTP_SSL _ => Return tt
  | SMTP_localhost => Raise (SMTPException "Connection refused")
  end.

#[export] Instance host : Host := {|
  normalize_username := lower;
  base_validate_username := ref_validate_username;
  hashpw := ref_hashpw;
  is_valid_password := ref_is_valid_password;
  is_valid_token := ref_is_valid_token;
  email_accepted := contains_char "@";
  sign_object := ref_sign_object;
  unsign_object := ref_unsign_object;
  isoformat := ref_isoformat;
  fromisoformat := ref_fromisoformat;
  format_approval_url := fun template url => template ++ url;
  smtp_deliver := ref_smtp_deliver
|}.

(** An authenticator with lockout after three failures and a ten-minute
    window, passwords of at least eight characters, and no user yet. *)
Definition auth0 : NativeAuthenticator :=
  {| self_approval_server := None;
     secret_key := "";
     allow_self_approval_for := None;
     self_approval_email := ("do-not-reply@my-domain.com",
                             "Welcome to JupyterHub on my-domain",
                             "navigate to ");
     check_common_password := true;
     minimum_password_length := 8;
     allowed_failed_logins := 3;
     seconds_before_next_try := 600;
     enable_signup := true;
     open_signup := false;
     ask_email_on_signup := false;
     admin_users := ∅;
     allowed_users := ∅;
     COMMON_PASSWORDS := {[ "password" ]};
     login_attempts := ∅;
     db := ∅ |}.

(** [s.endswith(suffix)]. *)
Fixpoint endswith (suffix s : string) : bool :=
  if String.eqb s suffix then true
  else match s with
       | EmptyString => false
       | String _ s' => endswith suffix s'
       end.

(** The same with self-approval for the addresses of [my-domain.com] and
    the signing secret [key]. *)
Definition auth_self_approval (key : string) : NativeAuthenticator :=
  {| self_approval_server := None;
     secret_key := key;
     allow_self_approval_for := Some (endswith "@my-domain.com");
     self_approval_email := self_approval_email auth0;
     check_common_password := true;
     minimum_password_length := 8;
     allowed_failed_logins := 3;
     seconds_before_next_try := 600;
     enable_signup := true;
     open_signup := false;
     ask_email_on_signup := false;
     admin_users := ∅;
     allowed_users := ∅;
     COMMON_PASSWORDS := {[ "password" ]};
     login_attempts := ∅;
     db := ∅ |}.

(** A pending account, and an authenticator whose table holds it. *)
Definition alice : UserInfo :=
  {| username := "alice"; password := "salt$Tr0ub4dor&3"; is_authorized := false;
     email := "alice@my-domain.com"; has_2fa := false; otp_secret := "JBSWY3DPEHPK3PXP" |}.

Definition auth_with_alice : NativeAuthenticator :=
  set_db {[ "alice" := alice ]} auth0.

Definition signup_form : SignupKwargs :=
  {| kw_email := "alice@my-domain.com"; kw_has_2fa := false |}.

End Reference.

(** ** Further states of the reference host *)

Module Scenarios.

Import Reference.


Definition auth_closed : NativeAuthenticator := set_signup_policy false false auth0.

Definition auth_mail : NativeAuthenticator :=
  set_self_approval_server
    (Some {| url := "smtp.my-domain.com"; usr := "hub"; pwd := "hunter2" |})
    (auth_self_approval "0123456789abcdef").

Definition auth_with_alice_authorized : NativeAuthenticator :=
  set_db {[ "alice" := authorized alice ]} auth0.

Definition bob : UserInfo :=
  {| username := "bob"; password := "salt$Tr0ub4dor&3"; is_authorized := false;
     email := "bob@my-domain.com"; has_2fa := false; otp_secret := "GEZDGNBVGY3TQOJQ" |}.

Definition bob_form : SignupKwargs :=
  {| kw_email := "bob@my-domain.com"; kw_has_2fa := false |}.

Definition alice_login (pw : string) : LoginData :=
  {| data_username := "Alice"; data_password := pw; data_2fa := None |}.

End Scenarios.

(** * Properties *)

(** ** Normalised time differences *)

Lemma seconds_range (us : Z) :
  0 <= seconds (timedelta_of_us us) < SECONDS_PER_DAY.
Proof.
  unfold timedelta_of_us, US_PER_DAY, SECONDS_PER_DAY, US_PER_SECOND; simpl.
  pose proof (Z.mod_pos_bound us (86400 * 1000000) ltac:(lia)) as Hr.
  split.
  - apply Z.div_pos; lia.
  - apply Z.div_lt_upper_bound; lia.
Qed.

(** Within one day the field [seconds] is the whole number of elapsed
    seconds. *)
Lemma seconds_same_day (us : Z) :
  0 <= us < US_PER_DAY -> seconds (timedelta_of_us us) = us / US_PER_SECOND.
Proof.
  intros Hus. unfold timedelta_of_us; simpl.
  now rewrite Z.mod_small.
Qed.

(** The field [seconds] never exceeds the elapsed seconds. *)
Lemma seconds_le_elapsed (us : Z) :
  0 <= us -> seconds (timedelta_of_us us) <= us / US_PER_SECOND.
Proof.
  intros Hus. unfold timedelta_of_us; simpl.
  apply Z.div_le_mono; [unfold US_PER_SECOND; lia|].
  apply Z.mod_le; [lia | unfold US_PER_DAY, SECONDS_PER_DAY, US_PER_SECOND; lia].
Qed.

(** A whole number of days leaves [seconds] at zero. *)
Lemma seconds_whole_days (d : Z) :
  seconds (timedelta_of_us (d * US_PER_DAY)) = 0.
Proof.
  unfold timedelta_of_us; simpl.
  rewrite Z.mod_mul by (unfold US_PER_DAY, SECONDS_PER_DAY, US_PER_SECOND; lia).
  reflexivity.
Qed.

(** ** The lockout tracker *)

Lemma is_blocked_absent (self : NativeAuthenticator) (u : string) (now : Z) :
  login_attempts self !! u = None -> is_blocked self u now = false.
Proof. intros Hu. unfold is_blocked. now rewrite Hu. Qed.

(** What [is_blocked] computes, in one formula. *)
Lemma is_blocked_entry (self : NativeAuthenticator) (u : string) (a : Attempt) (now : Z) :
  login_attempts self !! u = Some a ->
  is_blocked self u now =
    (allowed_failed_logins self <=? count a)
    && (seconds (PyDatetime.sub now (time a)) <=? seconds_before_next_try self).
Proof.
  intros Hu. unfold is_blocked, can_try_to_login_again. rewrite Hu.
  set (s := seconds (PyDatetime.sub now (time a))).
  rewrite Z.gtb_ltb.
  destruct (Z.ltb_spec (count a) (allowed_failed_logins self));
    destruct (Z.leb_spec (allowed_failed_logins self) (count a));
    destruct (Z.ltb_spec (seconds_before_next_try self) s);
    destruct (Z.leb_spec s (seconds_before_next_try self));
    try lia; reflexivity.
Qed.

(** Inside the window a user at the threshold is blocked. *)
Lemma is_blocked_inside_window (self : NativeAuthenticator) (u : string) (a : Attempt)
    (now : Z) :
  login_attempts self !! u = Some a ->
  allowed_failed_logins self <= count a ->
  time a <= now <= time a + seconds_before_next_try self * US_PER_SECOND ->
  is_blocked self u now = true.
Proof.
  intros Hu Hc Hnow. rewrite (is_blocked_entry _ _ _ _ Hu).
  apply andb_true_intro; split; [apply Z.leb_le; lia|].
  apply Z.leb_le. unfold PyDatetime.sub.
  etransitivity; [apply seconds_le_elapsed; lia|].
  apply Z.div_le_upper_bound; unfold US_PER_SECOND in *; lia.
Qed.

(** On the day of the last failure the window ends once a whole second
    more than [seconds_before_next_try] has passed. *)
Lemma is_blocked_window_elapsed_same_day (self : NativeAuthenticator) (u : string)
    (a : Attempt) (now : Z) :
  login_attempts self !! u = Some a ->
  (seconds_before_next_try self + 1) * US_PER_SECOND <= now - time a < US_PER_DAY ->
  0 <= seconds_before_next_try self ->
  is_blocked self u now = false.
Proof.
  intros Hu Hnow Hs. rewrite (is_blocked_entry _ _ _ _ Hu).
  apply andb_false_intro2. apply Z.leb_gt.
  unfold PyDatetime.sub. rewrite seconds_same_day by (unfold US_PER_SECOND in *; lia).
  assert (seconds_before_next_try self + 1 <= (now - time a) / US_PER_SECOND)
    by (apply Z.div_le_lower_bound; unfold US_PER_SECOND in *; lia).
  lia.
Qed.

Lemma add_login_attempt_entry (self : NativeAuthenticator) (u : string) (t : Z) :
  login_attempts (add_login_attempt self u t) !! u =
    Some {| count := match login_attempts self !! u with
                     | Some a => count a + 1
                     | None => 1
                     end;
            time := t |}.
Proof.
  unfold add_login_attempt.
  destruct (login_attempts self !! u); simpl; now rewrite lookup_insert_eq.
Qed.

Lemma add_login_attempt_config (self : NativeAuthenticator) (u : string) (t : Z) :
  allowed_failed_logins (add_login_attempt self u t) = allowed_failed_logins self
  /\ seconds_before_next_try (add_login_attempt self u t) = seconds_before_next_try self.
Proof. unfold add_login_attempt. destruct (login_attempts self !! u); auto. Qed.

Lemma record_failures_config (u : string) (times : list Z) (self : NativeAuthenticator) :
  allowed_failed_logins (record_failures self u times) = allowed_failed_logins self
  /\ seconds_before_next_try (record_failures self u times) = seconds_before_next_try self.
Proof.
  revert self. induction times as [|t times IH]; intros self; [auto|].
  unfold record_failures in *. simpl. destruct (IH (add_login_attempt self u t)) as [-> ->].
  apply add_login_attempt_config.
Qed.

Lemma record_failures_snoc (self : NativeAuthenticator) (u : string) (times : list Z) (t : Z) :
  record_failures self u (times ++ [t])%list
  = add_login_attempt (record_failures self u times) u t.
Proof. unfold record_failures. now rewrite fold_left_app. Qed.

(** Starting from no entry, [n] failures leave the count at [n]. *)
Lemma record_failures_count (u : string) (times : list Z) (self : NativeAuthenticator) :
  login_attempts self !! u = None ->
  times <> [] ->
  exists a, login_attempts (record_failures self u times) !! u = Some a
            /\ count a = Z.of_nat (length times).
Proof.
  intros Hu. induction times as [|t times IH] using rev_ind; [congruence|intros _].
  rewrite record_failures_snoc, add_login_attempt_entry.
  eexists; split; [reflexivity|]. simpl.
  rewrite length_app. simpl.
  destruct times as [|t0 times'].
  - simpl. unfold record_failures. simpl. now rewrite Hu.
  - destruct IH as (a & -> & Ha); [congruence|]. rewrite Ha. lia.
Qed.

(** A further failure of a user at the threshold blocks again, whenever it
    happens. *)
Lemma add_login_attempt_reblocks (self : NativeAuthenticator) (u : string) (a : Attempt)
    (t now : Z) :
  login_attempts self !! u = Some a ->
  allowed_failed_logins self <= count a ->
  t <= now <= t + seconds_before_next_try self * US_PER_SECOND ->
  is_blocked (add_login_attempt self u t) u now = true.
Proof.
  intros Hu Hc Hnow.
  destruct (add_login_attempt_config self u t) as [Hal Hse].
  eapply is_blocked_inside_window.
  - apply add_login_attempt_entry.
  - rewrite Hal, Hu. simpl. lia.
  - rewrite Hse. simpl. lia.
Qed.

(** A user at the threshold is blocked again a whole number of days after
    the last failure, however many days that is. *)
Lemma is_blocked_whole_days_later (self : NativeAuthenticator) (u : string) (a : Attempt)
    (d : Z) :
  login_attempts self !! u = Some a ->
  allowed_failed_logins self <= count a ->
  0 <= seconds_before_next_try self ->
  is_blocked self u (time a + d * US_PER_DAY) = true.
Proof.
  intros Hu Hc Hs. rewrite (is_blocked_entry _ _ _ _ Hu).
  apply andb_true_intro; split; [apply Z.leb_le; lia|].
  apply Z.leb_le. unfold PyDatetime.sub.
  replace (time a + d * US_PER_DAY - time a) with (d * US_PER_DAY) by lia.
  now rewrite seconds_whole_days.
Qed.

(** C1: with [allowed_failed_logins = 3] and [seconds_before_next_try = 600],
    a user whose third failure was recorded at time [0] is still reported
    blocked exactly one day later, although the 86400 elapsed seconds exceed
    the 600 of the window: [can_try_to_login_again] compares the [seconds]
    field of the difference, which is [0] there. *)
Theorem is_blocked_one_day_later :
  let self :=
    set_login_attempts {[ "alice" := {| count := 3; time := 0 |} ]} Reference.auth0 in
  let now := 86400 * US_PER_SECOND in
  count {| count := 3; time := 0 |} >= allowed_failed_logins self
  /\ now - 0 > seconds_before_next_try self * US_PER_SECOND
  /\ seconds (PyDatetime.sub now 0) = 0
  /\ can_try_to_login_again self "alice" now = false
  /\ is_blocked self "alice" now = true.
Proof. vm_compute. repeat split; congruence. Qed.

(** C6: a user without an entry is not blocked; after exactly
    [allowed_failed_logins] consecutive failures, the last one at [t], the
    user is blocked at [t] and at every instant of the window that follows;
    and a further failure at [t'], after that window has elapsed, blocks
    again at [t'] and throughout the window that follows it. *)
Theorem lockout_blocks_at_threshold (self : NativeAuthenticator) (u : string)
    (times : list Z) (t now t' now' : Z)
    (Hfresh : login_attempts self !! u = None)
    (Hn : Z.of_nat (length (times ++ [t])%list) = allowed_failed_logins self)
    (Hnow : t <= now <= t + seconds_before_next_try self * US_PER_SECOND)
    (Helapsed : t' - t > seconds_before_next_try self * US_PER_SECOND)
    (Hnow' : t' <= now' <= t' + seconds_before_next_try self * US_PER_SECOND) :
  (forall t0, is_blocked self u t0 = false)
  /\ is_blocked (record_failures self u (times ++ [t])%list) u now = true
  /\ is_blocked (add_login_attempt (record_failures self u (times ++ [t])%list) u t') u now'
     = true.
Proof.
  split; [intros t0; now apply is_blocked_absent|].
  destruct (record_failures_count u (times ++ [t])%list self Hfresh) as (a & Ha & Hca);
    [now destruct times|].
  destruct (record_failures_config u (times ++ [t])%list self) as [Hal Hse].
  assert (Hta : time a = t).
  { rewrite record_failures_snoc, add_login_attempt_entry in Ha. now inversion Ha. }
  split.
  - eapply is_blocked_inside_window; [exact Ha| |]; rewrite ?Hal, ?Hse, ?Hta; lia.
  - eapply add_login_attempt_reblocks; [exact Ha| |]; rewrite ?Hal, ?Hse; lia.
Qed.

Lemma lockout_blocks_at_threshold_witness :
  let self := Reference.auth0 in
  (forall t0, is_blocked self "alice" t0 = false)
  /\ is_blocked (record_failures self "alice" [0; 1000000; 2000000]) "alice" 2000000 = true
  /\ is_blocked (add_login_attempt
                   (record_failures self "alice" [0; 1000000; 2000000]) "alice" 700000000)
       "alice" 700000000 = true.
Proof.
  apply (lockout_blocks_at_threshold Reference.auth0 "alice" [0; 1000000] 2000000 2000000
           700000000 700000000).
  - reflexivity.
  - reflexivity.
  - vm_compute; split; congruence.
  - vm_compute; reflexivity.
  - vm_compute; split; congruence.
Defined.

(** ** Start-up check of the signing secret *)

(** C8: with self-approval configured, [setup_self_approval] raises (a
    [ValueError]) exactly when the secret has fewer than 8 characters; a
    secret of exactly 8 characters is accepted. *)
Theorem setup_self_approval_secret_length (self : NativeAuthenticator)
    (pattern : string -> bool)
    (Hconf : allow_self_approval_for self = Some pattern) :
  ((exists e, fst (setup_self_approval self) = Raise e) <-> len (secret_key self) < 8)
  /\ (len (secret_key self) < 8 ->
      exists msg, fst (setup_self_approval self) = Raise (ValueError msg))
  /\ (len (secret_key self) = 8 ->
      exists log, fst (setup_self_approval self) = Return log).
Proof.
  unfold setup_self_approval. rewrite Hconf. simpl.
  destruct (Z.ltb_spec (len (secret_key self)) 8) as [Hlt|Hge]; simpl.
  - split; [split; [auto|eauto]|]. split; [eauto|lia].
  - split; [split; [intros [e He]; discriminate|lia]|].
    split; [lia|eauto].
Qed.

Lemma setup_self_approval_secret_length_witness :
  ((exists e, fst (setup_self_approval (Reference.auth_self_approval "12345678")) = Raise e)
   <-> len "12345678" < 8)
  /\ (len "12345678" < 8 ->
      exists msg, fst (setup_self_approval (Reference.auth_self_approval "12345678"))
                  = Raise (ValueError msg))
  /\ (len "12345678" = 8 ->
      exists log, fst (setup_self_approval (Reference.auth_self_approval "12345678"))
                  = Return log).
Proof.
  apply (setup_self_approval_secret_length (Reference.auth_self_approval "12345678")
           (Reference.endswith "@my-domain.com")).
  reflexivity.
Defined.

(** Without self-approval nothing is checked. *)
Lemma setup_self_approval_off (self : NativeAuthenticator) :
  allow_self_approval_for self = None ->
  setup_self_approval self = (Return [], self).
Proof. intros Hoff. unfold setup_self_approval. now rewrite Hoff. Qed.

Section AuthenticatorProperties.

Context {H : Host}.

(** ** Changing a password *)

Lemma get_user_set_password_policy (self : NativeAuthenticator) (m : Z) (c : bool)
    (cp : gset string) (name : string) :
  get_user (set_password_policy m c cp self) name = get_user self name.
Proof. reflexivity. Qed.

(** C9: for an existing user and any new password, [change_password]
    returns normally and stores the hash of the new password under the
    user's key, leaving every other attribute and every other row as they
    were; the outcome is the same under any password policy, so a password
    that [is_password_strong] rejects is stored like any other. *)
Theorem change_password_ignores_policy (self : NativeAuthenticator)
    (name new_password salt : string) (user : UserInfo)
    (Huser : get_user self name = Some user) :
  let user' :=
    {| username := username user; password := hashpw new_password salt;
       is_authorized := is_authorized user; email := email user;
       has_2fa := has_2fa user; otp_secret := otp_secret user |} in
  change_password self name new_password salt
    = (Return tt, set_db (<[normalize_username name := user']> (db self)) self)
  /\ get_user (snd (change_password self name new_password salt)) name = Some user'
  /\ forall (m : Z) (c : bool) (cp : gset string),
       change_password (set_password_policy m c cp self) name new_password salt
       = (fst (change_password self name new_password salt),
          set_password_policy m c cp (snd (change_password self name new_password salt))).
Proof.
  intros user'. unfold change_password.
  split; [now rewrite Huser|]. split.
  - rewrite Huser. simpl. unfold get_user, UserInfo_find. simpl.
    now rewrite lookup_insert_eq.
  - intros m c cp. rewrite get_user_set_password_policy, Huser. reflexivity.
Qed.

(** ** Authentication *)

(** A record that is not authorized, or a password that does not match,
    makes [authenticate] return [None]. *)
Lemma authenticate_rejects (self : NativeAuthenticator) (data : LoginData)
    (t_blocked t_failed : Z) (user : UserInfo) :
  get_user self (normalize_username (data_username data)) = Some user ->
  is_authorized user = false \/ is_valid_password user (data_password data) = false ->
  authenticate self data t_blocked t_failed =
    (None,
     if negb (allowed_failed_logins self =? 0)
        && is_blocked self (normalize_username (data_username data)) t_blocked
     then self
     else add_login_attempt self (normalize_username (data_username data)) t_failed).
Proof.
  intros Huser Hbad. unfold authenticate. rewrite Huser.
  destruct (negb (allowed_failed_logins self =? 0)
            && is_blocked self (normalize_username (data_username data)) t_blocked);
    [reflexivity|].
  destruct Hbad as [-> | Hpw]; [reflexivity|].
  rewrite Hpw. simpl. now destruct (is_authorized user).
Qed.

(** C7: a login with the correct password for a record that is not
    authorized, and a login with an incorrect password, both return [None];
    when both are made for the same user on the same authenticator, with the
    same clock readings, the whole outcomes (return value and lockout state)
    are equal. *)
Theorem authenticate_pending_like_wrong_password
    (self1 self2 : NativeAuthenticator) (data1 data2 : LoginData)
    (t1 t1' t2 t2' : Z) (user1 user2 : UserInfo)
    (Huser1 : get_user self1 (normalize_username (data_username data1)) = Some user1)
    (Hpending : is_authorized user1 = false)
    (Hright : is_valid_password user1 (data_password data1) = true)
    (Huser2 : get_user self2 (normalize_username (data_username data2)) = Some user2)
    (Hwrong : is_valid_password user2 (data_password data2) = false) :
  fst (authenticate self1 data1 t1 t1') = None
  /\ fst (authenticate self2 data2 t2 t2') = None
  /\ (self1 = self2 ->
      normalize_username (data_username data1) = normalize_username (data_username data2) ->
      authenticate self1 data1 t1 t1' = authenticate self2 data2 t1 t1').
Proof.
  rewrite (authenticate_rejects self1 data1 t1 t1' user1 Huser1 (or_introl Hpending)).
  rewrite (authenticate_rejects self2 data2 t2 t2' user2 Huser2 (or_intror Hwrong)).
  split; [reflexivity|]. split; [reflexivity|].
  intros <- Hname.
  rewrite (authenticate_rejects self1 data2 t1 t1' user2 Huser2 (or_intror Hwrong)).
  now rewrite Hname.
Qed.

End AuthenticatorProperties.

(** ** The reference host honours the contracts *)

Lemma strip_prefix_app (p s : string) : strip_prefix p (p ++ s) = Some s.
Proof.
  induction p as [|c p IH]; simpl; [reflexivity|].
  now rewrite Ascii.eqb_refl.
Qed.

Module ReferenceFacts.

Import Reference.

Lemma read_unary_unary (n : nat) (s : string) :
  read_unary (unary n ++ s) = Some (n, s).
Proof.
  induction n as [|n IH]; simpl; [reflexivity|].
  now rewrite IH.
Qed.

Lemma split_at_app (a b : string) :
  split_at (String.length a) (a ++ b) = Some (a, b).
Proof.
  induction a as [|c a IH]; simpl; [reflexivity|].
  now rewrite IH.
Qed.

Lemma ref_unsign_sign (key : string) (obj : Payload) :
  ref_unsign_object key (ref_sign_object key obj) = Some obj.
Proof.
  unfold ref_unsign_object, ref_sign_object.
  rewrite strip_prefix_app, read_unary_unary, split_at_app.
  now destruct obj.
Qed.

Lemma ref_fromisoformat_isoformat (d : Z) :
  ref_fromisoformat (ref_isoformat d) = Some d.
Proof.
  unfold ref_fromisoformat, ref_isoformat.
  rewrite DecimalString.NilEmpty.isi.
  now rewrite DecimalZ.of_to.
Qed.



#[export] Instance host_laws : HostLaws host.
Proof.
  split.
  - exact ref_unsign_sign.
  - exact ref_fromisoformat_isoformat.
Defined.

End ReferenceFacts.

(** ** Approval tokens *)

Section Tokens.

Context {H : Host} {HL : HostLaws H}.

(** What follows ["/confirm/"] in an approval URL is the signed object. *)
Lemma generate_approval_url_token (self : NativeAuthenticator) (name : string)
    (when now : Z) :
  strip_prefix "/confirm/" (generate_approval_url self name (Some when) now)
  = Some (sign_object (secret_key self)
            {| p_username := name; p_expire := isoformat when |}).
Proof. unfold generate_approval_url. apply strip_prefix_app. Qed.

(** [validate_slug] on a token signed with the same key: only the clock
    decides. *)
Lemma validate_slug_signed (key name : string) (when now : Z) :
  validate_slug
    (sign_object key {| p_username := name; p_expire := isoformat when |}) key now
  = if now >? when then Raise (ValueError "The URL has expired")
    else Return {| d_username := name; d_expire := when |}.
Proof.
  unfold validate_slug. rewrite unsign_sign. simpl.
  now rewrite fromisoformat_isoformat.
Qed.

(** C2: for every username, every secret (in particular every secret of
    at least 8 characters) and every validity window [T] that is not
    negative, the token of the URL generated at [now] with expiry [now + T]
    verifies at [now] and gives back the username. *)
Theorem approval_url_round_trip (self : NativeAuthenticator) (name : string) (now : Z)
    (T : timedelta) (HT : 0 <= total_us T) :
  exists token,
    strip_prefix "/confirm/"
      (generate_approval_url self name (Some (PyDatetime.add now T)) now) = Some token
    /\ validate_slug token (secret_key self) now
       = Return {| d_username := name; d_expire := PyDatetime.add now T |}.
Proof.
  eexists. split; [apply generate_approval_url_token|].
  rewrite validate_slug_signed.
  destruct (Z.gtb_spec now (PyDatetime.add now T)) as [Hgt|_]; [|reflexivity].
  unfold PyDatetime.add in Hgt. lia.
Qed.

(** The same for the default window of fifteen minutes. *)
Lemma generate_default_then_validate (self : NativeAuthenticator) (name : string)
    (now : Z) :
  exists token,
    strip_prefix "/confirm/" (generate_approval_url self name None now) = Some token
    /\ validate_slug token (secret_key self) now
       = Return {| d_username := name;
                   d_expire := PyDatetime.add now (PyDatetime.minutes 15) |}.
Proof.
  eexists. split; [apply strip_prefix_app|].
  rewrite validate_slug_signed.
  destruct (Z.gtb_spec now (PyDatetime.add now (PyDatetime.minutes 15))) as [Hgt|_];
    [|reflexivity].
  assert (Hquarter : total_us (PyDatetime.minutes 15) = 900000000) by reflexivity.
  unfold PyDatetime.add in Hgt. lia.
Qed.

(** C3, as the code has it: the token of a URL generated at [issuedAt]
    with window [T] verifies at every time up to and including
    [issuedAt + T], and is refused as expired at every later time. *)
Theorem approval_url_expiry (self : NativeAuthenticator) (name : string)
    (issuedAt : Z) (T : timedelta) (now : Z) :
  exists token,
    strip_prefix "/confirm/"
      (generate_approval_url self name (Some (PyDatetime.add issuedAt T)) issuedAt)
    = Some token
    /\ (now <= PyDatetime.add issuedAt T ->
        validate_slug token (secret_key self) now
        = Return {| d_username := name; d_expire := PyDatetime.add issuedAt T |})
    /\ (now > PyDatetime.add issuedAt T ->
        validate_slug token (secret_key self) now
        = Raise (ValueError "The URL has expired")).
Proof.
  eexists. split; [apply generate_approval_url_token|].
  rewrite validate_slug_signed.
  destruct (Z.gtb_spec now (PyDatetime.add issuedAt T)); split; intros; try lia; reflexivity.
Qed.

End Tokens.

(** ** Confirmation of a token *)

Section Confirm.

Context {H : Host}.

(** C10: with self-approval enabled and a slug that [validate_slug]
    accepts, [AuthorizeHandler.get] returns a message exactly when the table
    has a row for the username of the token; without such a row it raises
    [AttributeError] on the [None] that the lookup returned, and renders
    nothing. *)
Theorem confirm_needs_existing_record (self : NativeAuthenticator) (slug : string)
    (now : Z) (data : SlugData) (pattern : string -> bool)
    (Hon : allow_self_approval_for self = Some pattern)
    (Hvalid : validate_slug slug (secret_key self) now = Return data) :
  (UserInfo_find (db self) (d_username data) = None ->
   AuthorizeHandler_get self slug now
   = (Raise (AttributeError "'NoneType' object has no attribute 'is_authorized'"), self))
  /\ ((exists page, fst (AuthorizeHandler_get self slug now) = Return page)
      <-> is_Some (UserInfo_find (db self) (d_username data))).
Proof.
  unfold AuthorizeHandler_get. rewrite Hon, Hvalid.
  destruct (UserInfo_find (db self) (d_username data)) as [usr|].
  - split; [discriminate|]. split; [eauto|intros _].
    destruct (negb (is_authorized usr)); simpl; eauto.
  - split; [reflexivity|]. split.
    + intros [page Hpage]. discriminate.
    + intros [usr Husr]. discriminate.
Qed.

End Confirm.

(** ** Signing up *)

Section Signup.

Context {H : Host}.



(** With signup switched off the signup handler answers 404, and a request
    that fails the reCAPTCHA test is told so; [create_user] is not called
    and nothing changes. *)
Lemma SignUpHandler_post_refuses (siteverify : option string -> string -> bool)
    (traits : SignupTraits) (self : NativeAuthenticator) (body : SignupBody)
    (salt otp : string) (now : Z) :
  (enable_signup self = false ->
   SignUpHandler_post siteverify traits self body salt otp now
   = (Return (Signup_HTTPError 404), self, []))
  /\ (forall log,
        enable_signup self = true ->
        recaptcha_check siteverify traits body = inr (false, log) ->
        SignUpHandler_post siteverify traits self body salt otp now
        = (Return (Signup_rendered (signup_result_page traits self None false false)),
           self, log)).
Proof.
  unfold SignUpHandler_post. split.
  - now intros ->.
  - intros log -> ->. reflexivity.
Qed.


(** C4, as the code has it: when self-approval is configured, the email
    matches the pattern and the mail collaborator raises, [create_user]
    raises that same exception, which is not the [None] of a user that was
    not created, and the table is left as it was: the new record is not
    stored. *)
Theorem create_user_mail_failure_propagates (self : NativeAuthenticator)
    (name pw : string) (kwargs : SignupKwargs) (salt otp : string) (now : Z)
    (pattern : string -> bool) (e : exn)
    (Hfree : user_exists self (normalize_username name) = false)
    (Hstrong : is_password_strong self pw = true)
    (Hvalid : validate_username self (normalize_username name) = true)
    (Hsignup : enable_signup self = true)
    (Hemail : email_accepted (kw_email kwargs) = true)
    (Hon : allow_self_approval_for self = Some pattern)
    (Hmatch : pattern (kw_email kwargs) = true)
    (Hmail : send_approval_email self (kw_email kwargs)
               (generate_approval_url self (normalize_username name) None now)
             = Raise e) :
  create_user self name pw kwargs salt otp now = (Raise e, self)
  /\ fst (create_user self name pw kwargs salt otp now) <> Return None
  /\ user_exists (snd (create_user self name pw kwargs salt otp now))
       (normalize_username name) = false.
Proof.
  assert (Hrun : create_user self name pw kwargs salt otp now = (Raise e, self)).
  { unfold create_user, UserInfo_init.
    rewrite Hfree, Hstrong, Hvalid, Hsignup. simpl.
    rewrite Hemail, Hon. simpl. rewrite Hmatch, Hmail. reflexivity. }
  rewrite Hrun. simpl. split; [reflexivity|]. split; [discriminate|exact Hfree].
Qed.

(** When the mail goes out, or none is due, the record is stored. *)
Lemma create_user_stores (self : NativeAuthenticator) (name pw : string)
    (kwargs : SignupKwargs) (salt otp : string) (now : Z) :
  user_exists self (normalize_username name) = false ->
  is_password_strong self pw = true ->
  validate_username self (normalize_username name) = true ->
  enable_signup self = true ->
  email_accepted (kw_email kwargs) = true ->
  allow_self_approval_for self = None ->
  exists user_info,
    create_user self name pw kwargs salt otp now
    = (Return (Some user_info),
       set_db (<[normalize_username name := user_info]> (db self)) self)
    /\ username user_info = normalize_username name
    /\ password user_info = hashpw pw salt.
Proof.
  intros Hfree Hstrong Hvalid Hsignup Hemail Hoff.
  unfold create_user, UserInfo_init.
  rewrite Hfree, Hstrong, Hvalid, Hsignup. simpl.
  rewrite Hemail, Hoff. eexists. split; [reflexivity|]. split; reflexivity.
Qed.

End Signup.

(** ** Runs on the reference host *)

Import Reference ReferenceFacts.

Lemma change_password_ignores_policy_witness :
  is_password_strong auth_with_alice "x" = false
  /\ fst (change_password auth_with_alice "Alice" "x" "salt") = Return tt
  /\ get_user (snd (change_password auth_with_alice "Alice" "x" "salt")) "Alice"
     = Some {| username := "alice"; password := "salt$x"; is_authorized := false;
               email := "alice@my-domain.com"; has_2fa := false;
               otp_secret := "JBSWY3DPEHPK3PXP" |}.
Proof.
  split; [vm_compute; reflexivity|].
  assert (Huser : get_user auth_with_alice "Alice" = Some alice)
    by (vm_compute; reflexivity).
  destruct (change_password_ignores_policy auth_with_alice "Alice" "x" "salt" alice Huser)
    as (Hrun & Hget & _).
  split; [now rewrite Hrun|exact Hget].
Defined.

Lemma authenticate_pending_like_wrong_password_witness :
  let right := {| data_username := "Alice"; data_password := "Tr0ub4dor&3";
                  data_2fa := None |} in
  let wrong := {| data_username := "alice"; data_password := "letmein";
                  data_2fa := None |} in
  fst (authenticate auth_with_alice right 0 1) = None
  /\ fst (authenticate auth_with_alice wrong 5 6) = None
  /\ authenticate auth_with_alice right 0 1 = authenticate auth_with_alice wrong 0 1.
Proof.
  intros right wrong.
  destruct (authenticate_pending_like_wrong_password auth_with_alice auth_with_alice
              right wrong 0 1 5 6 alice alice)
    as (H1 & H2 & H3); try (vm_compute; reflexivity).
  split; [exact H1|]. split; [exact H2|].
  apply H3; reflexivity.
Defined.

Lemma approval_url_round_trip_witness :
  exists token,
    strip_prefix "/confirm/"
      (generate_approval_url (auth_self_approval "0123456789abcdef") "alice"
         (Some (PyDatetime.add 1000000 (PyDatetime.minutes 15))) 1000000) = Some token
    /\ validate_slug token "0123456789abcdef" 1000000
       = Return {| d_username := "alice";
                   d_expire := PyDatetime.add 1000000 (PyDatetime.minutes 15) |}.
Proof.
  apply (approval_url_round_trip (auth_self_approval "0123456789abcdef") "alice" 1000000
           (PyDatetime.minutes 15)).
  vm_compute. congruence.
Defined.

Lemma approval_url_expiry_witness :
  exists token,
    strip_prefix "/confirm/"
      (generate_approval_url (auth_self_approval "0123456789abcdef") "alice"
         (Some (PyDatetime.add 1000000 (PyDatetime.minutes 15))) 1000000) = Some token
    /\ (901000001 <= PyDatetime.add 1000000 (PyDatetime.minutes 15) ->
        validate_slug token "0123456789abcdef" 901000001
        = Return {| d_username := "alice";
                    d_expire := PyDatetime.add 1000000 (PyDatetime.minutes 15) |})
    /\ (901000001 > PyDatetime.add 1000000 (PyDatetime.minutes 15) ->
        validate_slug token "0123456789abcdef" 901000001
        = Raise (ValueError "The URL has expired")).
Proof.
  exact (approval_url_expiry (HL := host_laws) (auth_self_approval "0123456789abcdef")
           "alice" 1000000 (PyDatetime.minutes 15) 901000001).
Defined.

(** C3 does not hold as stated: at the instant [issuedAt + T] itself the token of a URL generated with
    the default window is still accepted: no expiry error is raised. *)
Lemma validate_slug_accepts_at_expiry_instant :
  let self := auth_self_approval "0123456789abcdef" in
  let issuedAt := 1000000 in
  let T := PyDatetime.minutes 15 in
  exists token,
    strip_prefix "/confirm/" (generate_approval_url self "alice" None issuedAt) = Some token
    /\ PyDatetime.add issuedAt T >= PyDatetime.add issuedAt T
    /\ validate_slug token (secret_key self) (PyDatetime.add issuedAt T)
       = Return {| d_username := "alice"; d_expire := PyDatetime.add issuedAt T |}
    /\ validate_slug token (secret_key self) (PyDatetime.add issuedAt T)
       <> Raise (ValueError "The URL has expired").
Proof.
  eexists. split; [vm_compute; reflexivity|].
  split; [lia|]. split; [vm_compute; reflexivity|].
  vm_compute. discriminate.
Qed.

Lemma confirm_needs_existing_record_witness :
  let self := auth_self_approval "0123456789abcdef" in
  let slug := sign_object "0123456789abcdef"
                {| p_username := "ghost"; p_expire := isoformat 2000000 |} in
  AuthorizeHandler_get self slug 1000000
  = (Raise (AttributeError "'NoneType' object has no attribute 'is_authorized'"), self)
  /\ ~ exists page, fst (AuthorizeHandler_get self slug 1000000) = Return page.
Proof.
  intros self slug.
  destruct (confirm_needs_existing_record self slug 1000000
              {| d_username := "ghost"; d_expire := 2000000 |}
              (endswith "@my-domain.com"))
    as (Hraise & Hiff); try (vm_compute; reflexivity).
  split; [apply Hraise; vm_compute; reflexivity|].
  intros Hpage. apply Hiff in Hpage. destruct Hpage as [usr Husr].
  vm_compute in Husr. discriminate.
Defined.

(** C4 does not hold as stated: with no SMTP server on localhost the signup of a matching address
    raises, and the table has no row for the new user afterwards. *)
Lemma create_user_mail_failure_loses_record :
  let self := auth_self_approval "0123456789abcdef" in
  allow_self_approval_for self = Some (endswith "@my-domain.com")
  /\ endswith "@my-domain.com" (kw_email signup_form) = true
  /\ create_user self "Alice" "Tr0ub4dor&3" signup_form "salt" "JBSWY3DPEHPK3PXP" 1000000
     = (Raise (SMTPException "Connection refused"), self)
  /\ db (snd (create_user self "Alice" "Tr0ub4dor&3" signup_form "salt"
                "JBSWY3DPEHPK3PXP" 1000000)) !! "alice" = None.
Proof. vm_compute. repeat split; reflexivity. Qed.

Lemma create_user_mail_failure_propagates_witness :
  let self := auth_self_approval "0123456789abcdef" in
  create_user self "Alice" "Tr0ub4dor&3" signup_form "salt" "JBSWY3DPEHPK3PXP" 1000000
  = (Raise (SMTPException "Connection refused"), self)
  /\ fst (create_user self "Alice" "Tr0ub4dor&3" signup_form "salt" "JBSWY3DPEHPK3PXP"
            1000000) <> Return None
  /\ user_exists (snd (create_user self "Alice" "Tr0ub4dor&3" signup_form "salt"
                         "JBSWY3DPEHPK3PXP" 1000000)) (normalize_username "Alice") = false.
Proof.
  intros self.
  apply (create_user_mail_failure_propagates self "Alice" "Tr0ub4dor&3" signup_form "salt"
           "JBSWY3DPEHPK3PXP" 1000000 (endswith "@my-domain.com")
           (SMTPException "Connection refused")); vm_compute; reflexivity.
Defined.



(** * Further properties of the code *)

(** ** The lockout tracker, continued *)

Lemma seconds_periodic (us d : Z) :
  seconds (timedelta_of_us (us + d * US_PER_DAY)) = seconds (timedelta_of_us us).
Proof.
  unfold timedelta_of_us; simpl.
  rewrite Z.mod_add by (unfold US_PER_DAY, SECONDS_PER_DAY, US_PER_SECOND; lia).
  reflexivity.
Qed.

Lemma successful_login_entry (self : NativeAuthenticator) (u : string) :
  login_attempts (successful_login self u) !! u = None.
Proof.
  unfold successful_login.
  destruct (login_attempts self !! u) eqn:Hu; simpl; [apply lookup_delete_eq|exact Hu].
Qed.

Lemma successful_login_other (self : NativeAuthenticator) (u v : string) :
  u <> v -> login_attempts (successful_login self u) !! v = login_attempts self !! v.
Proof.
  intros Huv. unfold successful_login.
  destruct (login_attempts self !! u); simpl; [now apply lookup_delete_ne|reflexivity].
Qed.

Lemma add_login_attempt_other (self : NativeAuthenticator) (u v : string) (t : Z) :
  u <> v -> login_attempts (add_login_attempt self u t) !! v = login_attempts self !! v.
Proof.
  intros Huv. unfold add_login_attempt.
  destruct (login_attempts self !! u); simpl; now apply lookup_insert_ne.
Qed.

Lemma successful_login_config (self : NativeAuthenticator) (u : string) :
  allowed_failed_logins (successful_login self u) = allowed_failed_logins self
  /\ seconds_before_next_try (successful_login self u) = seconds_before_next_try self.
Proof. unfold successful_login. destruct (login_attempts self !! u); auto. Qed.

(** [is_blocked] reads the user's entry and the two lockout traits only. *)
Lemma is_blocked_ext (s1 s2 : NativeAuthenticator) (u : string) (now : Z) :
  login_attempts s1 !! u = login_attempts s2 !! u ->
  allowed_failed_logins s1 = allowed_failed_logins s2 ->
  seconds_before_next_try s1 = seconds_before_next_try s2 ->
  is_blocked s1 u now = is_blocked s2 u now.
Proof.
  intros Hl Ha Hs. unfold is_blocked, can_try_to_login_again.
  now rewrite Hl, Ha, Hs.
Qed.

(** After a successful login the next failure counts from one again,
    whatever was recorded before. *)
Theorem failure_after_success_counts_from_one (self : NativeAuthenticator) (u : string)
    (t : Z) :
  login_attempts (add_login_attempt (successful_login self u) u t) !! u
  = Some {| count := 1; time := t |}.
Proof. now rewrite add_login_attempt_entry, successful_login_entry. Qed.

(** Recording a failure or a success for one user leaves the block status
    of every other user as it was. *)
Theorem lockout_updates_are_per_user (self : NativeAuthenticator) (u v : string)
    (t now : Z) (Huv : u <> v) :
  is_blocked (add_login_attempt self u t) v now = is_blocked self v now
  /\ is_blocked (successful_login self u) v now = is_blocked self v now.
Proof.
  split; apply is_blocked_ext.
  - now apply add_login_attempt_other.
  - apply add_login_attempt_config.
  - apply add_login_attempt_config.
  - now apply successful_login_other.
  - apply successful_login_config.
  - apply successful_login_config.
Qed.

Lemma lockout_updates_are_per_user_witness :
  is_blocked (add_login_attempt Reference.auth0 "alice" 0) "bob" 5
  = is_blocked Reference.auth0 "bob" 5
  /\ is_blocked (successful_login Reference.auth0 "alice") "bob" 5
     = is_blocked Reference.auth0 "bob" 5.
Proof.
  apply (lockout_updates_are_per_user Reference.auth0 "alice" "bob" 0 5).
  discriminate.
Defined.

(** Fewer consecutive failures than [allowed_failed_logins] never block. *)
Theorem below_threshold_not_blocked (self : NativeAuthenticator) (u : string)
    (times : list Z) (now : Z)
    (Hfresh : login_attempts self !! u = None)
    (Hfew : Z.of_nat (length times) < allowed_failed_logins self) :
  is_blocked (record_failures self u times) u now = false.
Proof.
  destruct times as [|t times].
  - now apply is_blocked_absent.
  - destruct (record_failures_count u (t :: times) self Hfresh) as (a & Ha & Hca);
      [discriminate|].
    rewrite (is_blocked_entry _ _ _ _ Ha).
    destruct (record_failures_config u (t :: times) self) as [-> _].
    apply andb_false_intro1. apply Z.leb_gt. lia.
Qed.

Lemma below_threshold_not_blocked_witness :
  is_blocked (record_failures Reference.auth0 "alice" [0; 1000000]) "alice" 1000000 = false.
Proof.
  apply (below_threshold_not_blocked Reference.auth0 "alice" [0; 1000000] 1000000).
  - reflexivity.
  - vm_compute. reflexivity.
Defined.

(** On the day of the last failure a user at the threshold is blocked
    exactly while fewer than [seconds_before_next_try + 1] whole seconds have
    passed: the comparison is on whole seconds, so the block lasts up to one
    second longer than the configured window. *)
Theorem is_blocked_same_day (self : NativeAuthenticator) (u : string) (a : Attempt)
    (now : Z)
    (Hu : login_attempts self !! u = Some a)
    (Hc : allowed_failed_logins self <= count a)
    (Hday : 0 <= now - time a < US_PER_DAY) :
  is_blocked self u now
  = (now - time a <? (seconds_before_next_try self + 1) * US_PER_SECOND).
Proof.
  rewrite (is_blocked_entry _ _ _ _ Hu).
  replace (allowed_failed_logins self <=? count a) with true
    by (symmetry; apply Z.leb_le; lia).
  rewrite andb_true_l. unfold PyDatetime.sub. rewrite seconds_same_day by exact Hday.
  pose proof (Z.div_mod (now - time a) US_PER_SECOND ltac:(unfold US_PER_SECOND; lia)) as Hdm.
  pose proof (Z.mod_pos_bound (now - time a) US_PER_SECOND ltac:(unfold US_PER_SECOND; lia))
    as Hmod.
  destruct (Z.leb_spec ((now - time a) / US_PER_SECOND) (seconds_before_next_try self));
    destruct (Z.ltb_spec (now - time a) ((seconds_before_next_try self + 1) * US_PER_SECOND));
    try reflexivity; unfold US_PER_SECOND in *; nia.
Qed.

Lemma is_blocked_same_day_witness :
  let self :=
    set_login_attempts {[ "alice" := {| count := 3; time := 0 |} ]} Reference.auth0 in
  is_blocked self "alice" 600500000 = (600500000 - 0 <? (600 + 1) * US_PER_SECOND).
Proof.
  intros self.
  apply (is_blocked_same_day self "alice" {| count := 3; time := 0 |} 600500000).
  - reflexivity.
  - vm_compute. congruence.
  - vm_compute. split; congruence.
Defined.

(** The block status repeats every day: shifting the clock by whole days
    does not change what [is_blocked] answers. *)
Theorem is_blocked_daily_period (self : NativeAuthenticator) (u : string) (now d : Z) :
  is_blocked self u (now + d * US_PER_DAY) = is_blocked self u now.
Proof.
  destruct (login_attempts self !! u) as [a|] eqn:Hu.
  - rewrite !(is_blocked_entry _ _ _ _ Hu). unfold PyDatetime.sub.
    replace (now + d * US_PER_DAY - time a) with (now - time a + d * US_PER_DAY) by lia.
    now rewrite seconds_periodic.
  - now rewrite !is_blocked_absent.
Qed.

(** With a window of 86399 seconds or more a user at the threshold stays
    blocked at every time, until a successful login clears the entry. *)
Theorem is_blocked_forever_with_day_long_window (self : NativeAuthenticator) (u : string)
    (a : Attempt) (now : Z)
    (Hu : login_attempts self !! u = Some a)
    (Hc : allowed_failed_logins self <= count a)
    (Hlong : SECONDS_PER_DAY - 1 <= seconds_before_next_try self) :
  is_blocked self u now = true.
Proof.
  rewrite (is_blocked_entry _ _ _ _ Hu).
  apply andb_true_intro; split; [apply Z.leb_le; lia|].
  apply Z.leb_le. pose proof (seconds_range (now - time a)) as Hr.
  unfold PyDatetime.sub. lia.
Qed.

Lemma is_blocked_forever_with_day_long_window_witness :
  let self :=
    set_login_attempts {[ "alice" := {| count := 1; time := 0 |} ]}
      (set_lockout_policy 1 86400 Reference.auth0) in
  is_blocked self "alice" 999999999999 = true.
Proof.
  intros self.
  apply (is_blocked_forever_with_day_long_window self "alice" {| count := 1; time := 0 |}).
  - reflexivity.
  - vm_compute. congruence.
  - vm_compute. congruence.
Defined.

(** A wall clock that steps back (as local time does when daylight saving
    ends) lifts the block: a reading up to a day earlier than the recorded
    failure gives a [seconds] field above the window. *)
Theorem is_blocked_false_when_clock_steps_back (self : NativeAuthenticator) (u : string)
    (a : Attempt) (now : Z)
    (Hu : login_attempts self !! u = Some a)
    (Hback : (seconds_before_next_try self + 1) * US_PER_SECOND - US_PER_DAY
             <= now - time a < 0)
    (Hs : 0 <= seconds_before_next_try self) :
  is_blocked self u now = false.
Proof.
  rewrite (is_blocked_entry _ _ _ _ Hu).
  apply andb_false_intro2. apply Z.leb_gt. unfold PyDatetime.sub.
  rewrite <- (seconds_periodic (now - time a) 1).
  rewrite seconds_same_day
    by (unfold US_PER_DAY, SECONDS_PER_DAY, US_PER_SECOND in *; lia).
  assert (seconds_before_next_try self + 1
          <= (now - time a + 1 * US_PER_DAY) / US_PER_SECOND)
    by (apply Z.div_le_lower_bound; unfold US_PER_SECOND in *; lia).
  lia.
Qed.

Lemma is_blocked_false_when_clock_steps_back_witness :
  let self :=
    set_login_attempts {[ "alice" := {| count := 3; time := 7200000000 |} ]}
      Reference.auth0 in
  is_blocked self "alice" 3600000000 = false.
Proof.
  intros self.
  apply (is_blocked_false_when_clock_steps_back self "alice"
           {| count := 3; time := 7200000000 |} 3600000000).
  - reflexivity.
  - vm_compute. split; congruence.
  - vm_compute. congruence.
Defined.

(** ** Authentication, continued *)

Section AuthenticateProperties.

Context {H : Host}.

Lemma authenticate_found (self : NativeAuthenticator) (data : LoginData) (t1 t2 : Z)
    (user : UserInfo) :
  get_user self (normalize_username (data_username data)) = Some user ->
  authenticate self data t1 t2 =
    let name := normalize_username (data_username data) in
    if gate_closed self name t1 then (None, self)
    else if credentials_ok user data then (Some name, successful_login self name)
    else (None, add_login_attempt self name t2).
Proof.
  intros Huser. unfold authenticate, gate_closed, credentials_ok. rewrite Huser. simpl.
  destruct (negb (allowed_failed_logins self =? 0)
            && is_blocked self (normalize_username (data_username data)) t1);
    [reflexivity|].
  destruct (is_authorized user), (is_valid_password user (data_password data)),
    (has_2fa user); simpl; try reflexivity;
    destruct (is_valid_token user (data_2fa data)); reflexivity.
Qed.

Lemma authenticate_not_found (self : NativeAuthenticator) (data : LoginData) (t1 t2 : Z) :
  get_user self (normalize_username (data_username data)) = None ->
  authenticate self data t1 t2 = (None, self).
Proof. intros Huser. unfold authenticate. now rewrite Huser. Qed.

Lemma set_login_attempts_same (self : NativeAuthenticator) :
  set_login_attempts (login_attempts self) self = self.
Proof. now destruct self. Qed.

(** For an unknown user, and for a blocked one, [authenticate] returns
    [None] and records nothing, whatever password and code were sent: a
    blocked user's further attempts do not move the time of the last
    failure. *)
Theorem authenticate_unknown_or_blocked (self : NativeAuthenticator) (data : LoginData)
    (t1 t2 : Z)
    (Hcase : get_user self (normalize_username (data_username data)) = None
             \/ (allowed_failed_logins self <> 0
                 /\ is_blocked self (normalize_username (data_username data)) t1 = true)) :
  authenticate self data t1 t2 = (None, self).
Proof.
  destruct (get_user self (normalize_username (data_username data))) as [user|] eqn:Huser.
  - destruct Hcase as [Hnone | [Hon Hblocked]]; [discriminate|].
    rewrite (authenticate_found _ _ _ _ _ Huser). unfold gate_closed. simpl.
    rewrite Hblocked. destruct (Z.eqb_spec (allowed_failed_logins self) 0); [lia|].
    reflexivity.
  - now apply authenticate_not_found.
Qed.

(** [authenticate] returns a name exactly when the record exists, the gate
    is open, the record is authorized, the password matches and, for a
    record with 2FA, the code matches; the name is the normalized one. *)
Theorem authenticate_accepts_iff (self : NativeAuthenticator) (data : LoginData)
    (t1 t2 : Z) (n : string) :
  fst (authenticate self data t1 t2) = Some n
  <-> n = normalize_username (data_username data)
      /\ exists user,
           get_user self n = Some user
           /\ (allowed_failed_logins self = 0 \/ is_blocked self n t1 = false)
           /\ is_authorized user = true
           /\ is_valid_password user (data_password data) = true
           /\ (has_2fa user = true -> is_valid_token user (data_2fa data) = true).
Proof.
  destruct (get_user self (normalize_username (data_username data))) as [user|] eqn:Huser.
  - rewrite (authenticate_found _ _ _ _ _ Huser). simpl. split.
    + intros Heq.
      destruct (gate_closed self _ t1) eqn:Hgate; simpl in Heq; [discriminate|].
      destruct (credentials_ok user data) eqn:Hcred; simpl in Heq; [|discriminate].
      inversion Heq; subst n. split; [reflexivity|]. exists user.
      unfold credentials_ok in Hcred. apply andb_true_iff in Hcred as [Hcred Htok].
      apply andb_true_iff in Hcred as [Hauth Hpw].
      unfold gate_closed in Hgate. apply andb_false_iff in Hgate.
      repeat split; auto.
      * destruct Hgate as [Hz | Hb]; [left|now right].
        apply negb_false_iff, Z.eqb_eq in Hz. exact Hz.
      * intros H2fa. rewrite H2fa in Htok. exact Htok.
    + intros (-> & user' & Huser' & Hgate & Hauth & Hpw & Htok).
      rewrite Huser in Huser'. inversion Huser'; subst user'.
      assert (Hopen : gate_closed self (normalize_username (data_username data)) t1
                      = false).
      { unfold gate_closed. destruct Hgate as [-> | ->]; [reflexivity|apply andb_false_r]. }
      assert (Hcred : credentials_ok user data = true).
      { unfold credentials_ok. rewrite Hauth, Hpw. simpl.
        destruct (has_2fa user); simpl; [now apply Htok|reflexivity]. }
      now rewrite Hopen, Hcred.
  - rewrite (authenticate_not_found _ _ _ _ Huser). simpl. split; [discriminate|].
    intros (-> & user & Huser' & _). rewrite Huser in Huser'. discriminate.
Qed.

(** Whatever the outcome, [authenticate] changes nothing but the entry of
    the user named in the request: the table, the configuration and the
    entries of all other users stay as they were. *)
Theorem authenticate_touches_one_entry (self : NativeAuthenticator) (data : LoginData)
    (t1 t2 : Z) :
  exists m,
    snd (authenticate self data t1 t2) = set_login_attempts m self
    /\ forall v, v <> normalize_username (data_username data) ->
                 m !! v = login_attempts self !! v.
Proof.
  destruct (get_user self (normalize_username (data_username data))) as [user|] eqn:Huser.
  - rewrite (authenticate_found _ _ _ _ _ Huser). simpl.
    destruct (gate_closed self _ t1); simpl.
    + exists (login_attempts self). split; [now rewrite set_login_attempts_same|auto].
    + destruct (credentials_ok user data); simpl.
      * unfold successful_login.
        destruct (login_attempts self !! normalize_username (data_username data)).
        -- eexists. split; [reflexivity|]. intros v Hv. now apply lookup_delete_ne.
        -- exists (login_attempts self).
           split; [now rewrite set_login_attempts_same|auto].
      * unfold add_login_attempt.
        destruct (login_attempts self !! normalize_username (data_username data));
          eexists; (split; [reflexivity|]); intros v Hv; now apply lookup_insert_ne.
  - rewrite (authenticate_not_found _ _ _ _ Huser). simpl.
    exists (login_attempts self). split; [now rewrite set_login_attempts_same|auto].
Qed.

(** A rejected login of an existing user whose gate is open records exactly
    one failure, stamped with the time of the rejection; this also happens
    with the lockout switched off ([allowed_failed_logins = 0]). *)
Theorem authenticate_reject_records_failure (self : NativeAuthenticator)
    (data : LoginData) (t1 t2 : Z) (user : UserInfo)
    (Huser : get_user self (normalize_username (data_username data)) = Some user)
    (Hopen : allowed_failed_logins self = 0
             \/ is_blocked self (normalize_username (data_username data)) t1 = false)
    (Hbad : is_authorized user = false
            \/ is_valid_password user (data_password data) = false
            \/ (has_2fa user = true /\ is_valid_token user (data_2fa data) = false)) :
  fst (authenticate self data t1 t2) = None
  /\ login_attempts (snd (authenticate self data t1 t2))
       !! normalize_username (data_username data)
     = Some {| count := match login_attempts self
                              !! normalize_username (data_username data) with
                        | Some a => count a + 1
                        | None => 1
                        end;
               time := t2 |}.
Proof.
  rewrite (authenticate_found _ _ _ _ _ Huser). simpl.
  assert (Hgate : gate_closed self (normalize_username (data_username data)) t1 = false).
  { unfold gate_closed. destruct Hopen as [-> | ->]; [reflexivity|apply andb_false_r]. }
  assert (Hcred : credentials_ok user data = false).
  { unfold credentials_ok. destruct Hbad as [-> | [-> | [-> ->]]];
      [reflexivity|now rewrite andb_false_r|apply andb_false_r]. }
  rewrite Hgate, Hcred. simpl. split; [reflexivity|apply add_login_attempt_entry].
Qed.

(** A user at the threshold who comes back with the right credentials
    after the window, on the day of the last failure, is let in, and the
    entry is gone afterwards. *)
Theorem authenticate_after_window (self : NativeAuthenticator) (data : LoginData)
    (t1 t2 : Z) (user : UserInfo) (a : Attempt)
    (Huser : get_user self (normalize_username (data_username data)) = Some user)
    (Hentry : login_attempts self !! normalize_username (data_username data) = Some a)
    (Hwindow : (seconds_before_next_try self + 1) * US_PER_SECOND
               <= t1 - time a < US_PER_DAY)
    (Hs : 0 <= seconds_before_next_try self)
    (Hauth : is_authorized user = true)
    (Hpw : is_valid_password user (data_password data) = true)
    (H2fa : has_2fa user = false) :
  fst (authenticate self data t1 t2) = Some (normalize_username (data_username data))
  /\ login_attempts (snd (authenticate self data t1 t2))
       !! normalize_username (data_username data) = None.
Proof.
  rewrite (authenticate_found _ _ _ _ _ Huser). simpl.
  unfold gate_closed, credentials_ok.
  rewrite (is_blocked_window_elapsed_same_day self _ a t1 Hentry Hwindow Hs).
  rewrite andb_false_r, Hauth, Hpw, H2fa. simpl.
  split; [reflexivity|apply successful_login_entry].
Qed.

End AuthenticateProperties.

(** ** Password policy and username rule *)

Section PolicyProperties.

Context {H : Host}.

Lemma is_password_strong_lengths (self : NativeAuthenticator) (pw : string) :
  is_password_strong self pw = true ->
  minimum_password_length self <= len pw
  /\ (check_common_password self = true -> pw ∉ COMMON_PASSWORDS self).
Proof.
  unfold is_password_strong, is_password_common.
  destruct (check_common_password self); simpl.
  - rewrite !andb_true_iff, Z.leb_le, negb_true_iff, bool_decide_eq_false.
    intros (Hlen & Hnot & _); auto.
  - rewrite andb_true_iff, Z.leb_le. intros [Hlen _]; split; [auto|discriminate].
Qed.

(** A password passes exactly when it is long enough and, with the common
    password check switched on, is not in the list. *)
Theorem is_password_strong_iff (self : NativeAuthenticator) (pw : string) :
  is_password_strong self pw = true
  <-> minimum_password_length self <= len pw
      /\ (check_common_password self = true -> pw ∉ COMMON_PASSWORDS self).
Proof.
  split; [apply is_password_strong_lengths|].
  unfold is_password_strong, is_password_common.
  destruct (check_common_password self); simpl.
  - rewrite !andb_true_iff, Z.leb_le, negb_true_iff, bool_decide_eq_false.
    intros (Hlen & Hnot); auto.
  - rewrite andb_true_iff, Z.leb_le. intros [Hlen _]. auto.
Qed.

(** A username passes exactly when it has no comma, no space, and the
    base class accepts it. *)
Lemma validate_username_iff (self : NativeAuthenticator) (name : string) :
  validate_username self name = true
  <-> contains_char "," name = false
      /\ contains_char " " name = false
      /\ base_validate_username name = true.
Proof.
  unfold validate_username. simpl.
  destruct (contains_char "," name), (contains_char " " name); simpl;
    split; try (intros (? & ? & ?)); try discriminate; auto.
Qed.

End PolicyProperties.

(** ** Signing up, continued *)

Section SignupProperties.

Context {H : Host}.

(** What a successful [create_user] did. *)
Lemma create_user_created (self self' : NativeAuthenticator) (name pw : string)
    (kwargs : SignupKwargs) (salt otp : string) (now : Z) (u : UserInfo) :
  create_user self name pw kwargs salt otp now = (Return (Some u), self') ->
  user_exists self (normalize_username name) = false
  /\ is_password_strong self pw = true
  /\ validate_username self (normalize_username name) = true
  /\ enable_signup self = true
  /\ u = {| username := normalize_username name; password := hashpw pw salt;
            is_authorized :=
              open_signup self
              || bool_decide (normalize_username name
                              ∈ admin_users self ∪ allowed_users self);
            email := kw_email kwargs; has_2fa := kw_has_2fa kwargs;
            otp_secret := otp |}
  /\ self' = set_db (<[normalize_username name := u]> (db self)) self.
Proof.
  unfold create_user, UserInfo_init.
  destruct (user_exists self (normalize_username name)); [discriminate|].
  destruct (is_password_strong self pw); [|discriminate].
  destruct (validate_username self (normalize_username name)); [|discriminate].
  destruct (enable_signup self); [|discriminate]. simpl.
  destruct (email_accepted (kw_email kwargs)); [|discriminate].
  match goal with
  | |- context [match ?sent with Return _ => _ | Raise _ => _ end] => destruct sent
  end; [|discriminate].
  intros Heq. inversion Heq; subst.
  repeat split; try reflexivity.
  f_equal. now destruct (open_signup self || _).
Qed.


(** With signup switched off nothing is ever created. *)
Theorem create_user_signup_disabled (self : NativeAuthenticator) (name pw : string)
    (kwargs : SignupKwargs) (salt otp : string) (now : Z)
    (Hoff : enable_signup self = false) :
  create_user self name pw kwargs salt otp now = (Return None, self).
Proof.
  unfold create_user. rewrite Hoff.
  destruct (user_exists self (normalize_username name)); [reflexivity|].
  destruct (negb (is_password_strong self pw)
            || negb (validate_username self (normalize_username name))); reflexivity.
Qed.



(** Whatever the outcome, [create_user] changes at most the row of the
    normalized name: the configuration, the lockout entries and all other
    rows stay as they were. *)
Theorem create_user_touches_one_row (self : NativeAuthenticator) (name pw : string)
    (kwargs : SignupKwargs) (salt otp : string) (now : Z) :
  exists table,
    snd (create_user self name pw kwargs salt otp now) = set_db table self
    /\ forall k, k <> normalize_username name -> table !! k = db self !! k.
Proof.
  assert (Hsame : set_db (db self) self = self) by now destruct self.
  unfold create_user.
  repeat match goal with
  | |- context [if ?b then _ else _] => destruct b
  | |- context [match UserInfo_init ?i ?o with _ => _ end] => destruct (UserInfo_init i o)
  | |- context [match ?sent with Return _ => _ | Raise _ => _ end] => destruct sent
  end; simpl;
    try (exists (db self); split; [now rewrite Hsame|auto]);
    eexists; (split; [reflexivity|]); intros k Hk; now apply lookup_insert_ne.
Qed.



End SignupProperties.

(** ** Tokens and their confirmation, continued *)

Section ConfirmProperties.

Context {H : Host}.


(** A slug that verifies now verified at every earlier time too, with the
    same result, and its expiry is not in the past; a slug refused now is
    refused at every later time. *)
Theorem validate_slug_monotone (slug key : string) (now earlier later : Z)
    (Hearlier : earlier <= now) (Hlater : now <= later) :
  (forall data, validate_slug slug key now = Return data ->
                validate_slug slug key earlier = Return data /\ now <= d_expire data)
  /\ (forall e, validate_slug slug key now = Raise e ->
                exists e', validate_slug slug key later = Raise e').
Proof.
  unfold validate_slug.
  destruct (unsign_object key slug) as [obj|]; [|split; [discriminate|eauto]].
  destruct (fromisoformat (p_expire obj)) as [expire|]; [|split; [discriminate|eauto]].
  destruct (Z.gtb_spec now expire) as [Hexp|Hok]; split.
  - discriminate.
  - intros e _. destruct (Z.gtb_spec later expire); [eauto|lia].
  - intros data Heq. inversion Heq; subst data. simpl.
    destruct (Z.gtb_spec earlier expire); [lia|]. split; [reflexivity|lia].
  - discriminate.
Qed.


(** Confirming the token of a pending user authorizes exactly that user and
    touches nothing else of the row or of the table; confirming the same
    token again, while it is still valid, only reports that the user was
    already authorized. *)
Theorem confirm_then_replay (self : NativeAuthenticator) (slug : string)
    (now later : Z) (data : SlugData) (pattern : string -> bool) (usr : UserInfo)
    (Hon : allow_self_approval_for self = Some pattern)
    (Hvalid : validate_slug slug (secret_key self) later = Return data)
    (Horder : now <= later)
    (Hrow : UserInfo_find (db self) (d_username data) = Some usr)
    (Hpending : is_authorized usr = false) :
  let self' := set_db (<[d_username data := authorized usr]> (db self)) self in
  AuthorizeHandler_get self slug now
  = (Return (d_username data ++ " has been authorized"), self')
  /\ AuthorizeHandler_get self' slug later
     = (Return (d_username data ++ " was already authorized"), self').
Proof.
  intros self'.
  assert (Hnow : validate_slug slug (secret_key self) now = Return data).
  { revert Hvalid. unfold validate_slug.
    destruct (unsign_object (secret_key self) slug) as [obj|]; [|discriminate].
    destruct (fromisoformat (p_expire obj)) as [expire|]; [|discriminate].
    destruct (Z.gtb_spec later expire); [discriminate|].
    destruct (Z.gtb_spec now expire); [lia|auto]. }
  split.
  - unfold AuthorizeHandler_get. rewrite Hon, Hnow, Hrow, Hpending. simpl.
    unfold UserInfo_change_authorization. unfold UserInfo_find in Hrow.
    now rewrite Hrow.
  - unfold AuthorizeHandler_get. subst self'. simpl. rewrite Hon, Hvalid.
    unfold UserInfo_find. now rewrite lookup_insert_eq.
Qed.

End ConfirmProperties.

Lemma validate_slug_monotone_witness :
  (forall data,
     @validate_slug Reference.host "k1:a100" "k" 50 = Return data ->
     @validate_slug Reference.host "k1:a100" "k" 10 = Return data
     /\ 50 <= d_expire data)
  /\ (forall e,
        @validate_slug Reference.host "k1:a100" "k" 50 = Raise e ->
        exists e', @validate_slug Reference.host "k1:a100" "k" 200 = Raise e').
Proof.
  apply (@validate_slug_monotone Reference.host "k1:a100" "k" 50 10 200); lia.
Defined.

Section SignupThenConfirm.

Context {H : Host} {HL : HostLaws H}.

(** The link mailed at signup works: for a user created pending, the token
    of the approval URL that [create_user] generates, followed within the
    fifteen minutes, authorizes that user. *)
Theorem signup_then_confirm (self self' : NativeAuthenticator) (name pw : string)
    (kwargs : SignupKwargs) (salt otp : string) (now later : Z) (u : UserInfo)
    (pattern : string -> bool)
    (Hcreated : create_user self name pw kwargs salt otp now = (Return (Some u), self'))
    (Hon : allow_self_approval_for self = Some pattern)
    (Hpending : is_authorized u = false)
    (Hintime : later <= PyDatetime.add now (PyDatetime.minutes 15)) :
  exists token,
    strip_prefix "/confirm/"
      (generate_approval_url self (normalize_username name) None now) = Some token
    /\ AuthorizeHandler_get self' token later
       = (Return (normalize_username name ++ " has been authorized"),
          set_db (<[normalize_username name := authorized u]> (db self')) self').
Proof.
  destruct (create_user_created _ _ _ _ _ _ _ _ _ Hcreated)
    as (_ & _ & _ & _ & _ & Hself).
  eexists. split; [apply strip_prefix_app|].
  unfold AuthorizeHandler_get.
  replace (allow_self_approval_for self') with (Some pattern) by (now rewrite Hself).
  replace (secret_key self') with (secret_key self) by (now rewrite Hself).
  rewrite validate_slug_signed.
  destruct (Z.gtb_spec later (PyDatetime.add now (PyDatetime.minutes 15))); [lia|].
  simpl.
  assert (Hrow : db self' !! normalize_username name = Some u).
  { rewrite Hself. simpl. apply lookup_insert_eq. }
  unfold UserInfo_find, UserInfo_change_authorization. rewrite Hrow, Hpending.
  reflexivity.
Qed.

End SignupThenConfirm.

(** ** Changing and discarding, continued *)

Section AdminProperties.

Context {H : Host}.

(** For a user that does not exist, the form of the administrator's
    password page answers 404, but posting it raises [AttributeError] out
    of [change_password]; nothing is stored either way. *)
Theorem change_password_of_missing_user (self : NativeAuthenticator)
    (user_name new_password salt : string)
    (Hmissing : get_user self user_name = None) :
  ChangePasswordAdminHandler_get self user_name = HTTPError 404
  /\ change_password self user_name new_password salt
     = (Raise (AttributeError "'NoneType' object has no attribute 'password'"), self)
  /\ ChangePasswordAdminHandler_post self user_name new_password salt
     = (Raise (AttributeError "'NoneType' object has no attribute 'password'"), self).
Proof.
  unfold ChangePasswordAdminHandler_get, ChangePasswordAdminHandler_post,
    change_password, user_exists.
  now rewrite Hmissing.
Qed.

Lemma keyed_by_username_insert (table : gmap string UserInfo) (k : string) (u : UserInfo) :
  keyed_by_username table -> username u = k -> keyed_by_username (<[k := u]> table).
Proof.
  intros Hok Hu k' u'. rewrite lookup_insert. case_decide.
  - intros Heq. inversion Heq; subst. reflexivity.
  - apply Hok.
Qed.

Lemma create_user_outcome (self : NativeAuthenticator) (name pw : string)
    (kwargs : SignupKwargs) (salt otp : string) (now : Z) :
  snd (create_user self name pw kwargs salt otp now) = self
  \/ exists u, fst (create_user self name pw kwargs salt otp now) = Return (Some u).
Proof.
  unfold create_user.
  repeat match goal with
  | |- context [if ?b then _ else _] => destruct b
  | |- context [match UserInfo_init ?i ?o with _ => _ end] => destruct (UserInfo_init i o)
  | |- context [match ?sent with Return _ => _ | Raise _ => _ end] => destruct sent
  end; simpl; eauto.
Qed.

Lemma authenticate_db (self : NativeAuthenticator) (data : LoginData) (t1 t2 : Z) :
  db (snd (authenticate self data t1 t2)) = db self.
Proof.
  unfold authenticate, successful_login, add_login_attempt.
  repeat match goal with
  | |- context [match ?x with _ => _ end] => destruct x
  end; reflexivity.
Qed.

(** Signing up, changing a password, confirming a token and logging in all
    keep every row filed under its own username. *)
Theorem keyed_by_username_preserved (self : NativeAuthenticator)
    (Hok : keyed_by_username (db self)) :
  (forall name pw kwargs salt otp now,
     keyed_by_username (db (snd (create_user self name pw kwargs salt otp now))))
  /\ (forall name new_password salt,
        keyed_by_username (db (snd (change_password self name new_password salt))))
  /\ (forall slug now, keyed_by_username (db (snd (AuthorizeHandler_get self slug now))))
  /\ (forall data t1 t2, keyed_by_username (db (snd (authenticate self data t1 t2)))).
Proof.
  split; [|split; [|split]].
  - intros name pw kwargs salt otp now.
    destruct (create_user self name pw kwargs salt otp now) as [[[u|]|e] self'] eqn:Hrun;
      simpl.
    + destruct (create_user_created _ _ _ _ _ _ _ _ _ Hrun)
        as (_ & _ & _ & _ & Hu & ->).
      simpl. apply keyed_by_username_insert; [exact Hok|now rewrite Hu].
    + destruct (create_user_outcome self name pw kwargs salt otp now)
        as [Hsame | (u & Hsome)]; rewrite Hrun in *; simpl in *;
        [now subst self'|discriminate].
    + destruct (create_user_outcome self name pw kwargs salt otp now)
        as [Hsame | (u & Hsome)]; rewrite Hrun in *; simpl in *;
        [now subst self'|discriminate].
  - intros name new_password salt. unfold change_password.
    destruct (get_user self name) as [user|] eqn:Huser; simpl; [|exact Hok].
    apply keyed_by_username_insert; [exact Hok|]. simpl. now apply Hok.
  - intros slug now. unfold AuthorizeHandler_get.
    repeat match goal with
    | |- context [match ?x with _ => _ end] => destruct x eqn:?
    end; simpl; try exact Hok.
    unfold UserInfo_change_authorization, UserInfo_find in *.
    match goal with
    | Hrow : db self !! _ = Some _ |- _ => rewrite Hrow
    end.
    apply keyed_by_username_insert; [exact Hok|]. simpl. now apply Hok.
  - intros data t1 t2.
    now rewrite authenticate_db.
Qed.

End AdminProperties.

Section CreatedAccounts.

Context {H : Host}.

(** Every account that [create_user] stores was created while signup was
    enabled, under a username without comma or space that the base class
    accepts, and with a password that met the policy of that moment. *)
Theorem create_user_respects_policy (self self' : NativeAuthenticator) (name pw : string)
    (kwargs : SignupKwargs) (salt otp : string) (now : Z) (u : UserInfo)
    (Hcreated : create_user self name pw kwargs salt otp now = (Return (Some u), self')) :
  enable_signup self = true
  /\ contains_char "," (username u) = false
  /\ contains_char " " (username u) = false
  /\ base_validate_username (username u) = true
  /\ minimum_password_length self <= len pw
  /\ (check_common_password self = true -> pw ∉ COMMON_PASSWORDS self)
  /\ email_accepted (email u) = true.
Proof.
  pose proof Hcreated as Hrun. revert Hrun. unfold create_user, UserInfo_init.
  destruct (create_user_created _ _ _ _ _ _ _ _ _ Hcreated)
    as (Hfree & Hstrong & Hvalid & Hsignup & Hu & _).
  rewrite Hfree, Hstrong, Hvalid, Hsignup. simpl.
  destruct (email_accepted (kw_email kwargs)) eqn:Hemail; [intros _|discriminate].
  apply validate_username_iff in Hvalid as (Hcomma & Hspace & Hbase).
  apply is_password_strong_lengths in Hstrong as (Hlen & Hcommon).
  rewrite Hu. simpl. repeat split; auto.
Qed.

End CreatedAccounts.

Section DiscardProperties.

Context {H : Host}.

Variable base_delete_user : NativeAuthenticator -> string -> NativeAuthenticator.

(** Discarding never removes an authorized user, and does nothing for a
    name that has no row: the table, the registry of the hub and the
    authenticator stay as they were, and the administrator is sent back to
    the list. *)
Theorem discard_keeps_authorized (base_url : string) (self : NativeAuthenticator)
    (users : gset string) (user_name : string)
    (Hcase : get_user self user_name = None
             \/ exists u, get_user self user_name = Some u /\ is_authorized u = true) :
  DiscardHandler_get base_delete_user base_url self users user_name
  = (Redirect (base_url ++ "authorize"), self, users).
Proof.
  unfold DiscardHandler_get.
  destruct Hcase as [-> | (u & -> & ->)]; reflexivity.
Qed.

(** Discarding a pending user, under a base class that leaves the table
    alone, removes that user's row and registry entry and no other. *)
Theorem discard_removes_pending (base_url : string) (self : NativeAuthenticator)
    (users : gset string) (user_name : string) (u : UserInfo)
    (Hbase : forall s n, db (base_delete_user s n) = db s)
    (Hrow : get_user self user_name = Some u)
    (Hpending : is_authorized u = false) :
  let r := DiscardHandler_get base_delete_user base_url self users user_name in
  fst (fst r) = Redirect (base_url ++ "authorize")
  /\ db (snd (fst r)) = delete (normalize_username user_name) (db self)
  /\ get_user (snd (fst r)) user_name = None
  /\ snd r = users ∖ {[ user_name ]}.
Proof.
  unfold DiscardHandler_get, delete_user. rewrite Hrow, Hpending. simpl.
  split; [reflexivity|]. split; [now rewrite Hbase|]. split.
  - unfold get_user, UserInfo_find. rewrite Hbase. simpl. apply lookup_delete_eq.
  - case_bool_decide as Hin; [reflexivity|].
    apply set_eq. intros x. rewrite elem_of_difference, elem_of_singleton.
    split; [|tauto]. intros Hx. split; [exact Hx|]. intros ->. contradiction.
Qed.

End DiscardProperties.

(** ** Further runs on the reference host *)

(** Closes a goal with a computed instance of a proved statement. *)
Ltac by_instance Hw := vm_compute in Hw |- *; exact Hw.

Import Scenarios.

Lemma authenticate_unknown_or_blocked_witness :
  authenticate auth0 (alice_login "Tr0ub4dor&3") 0 1 = (None, auth0).
Proof.
  apply (@authenticate_unknown_or_blocked host auth0 (alice_login "Tr0ub4dor&3") 0 1).
  left. vm_compute. reflexivity.
Defined.

Lemma authenticate_reject_records_failure_witness :
  fst (authenticate auth_with_alice_authorized (alice_login "letmein") 0 1) = None
  /\ login_attempts (snd (authenticate auth_with_alice_authorized (alice_login "letmein")
                            0 1)) !! "alice"
     = Some {| count := 1; time := 1 |}.
Proof.
  assert (Hw := @authenticate_reject_records_failure host auth_with_alice_authorized
                  (alice_login "letmein") 0 1 (authorized alice)
                  ltac:(vm_compute; reflexivity)
                  ltac:(right; vm_compute; reflexivity)
                  ltac:(right; left; vm_compute; reflexivity)).
  by_instance Hw.
Defined.

Lemma authenticate_after_window_witness :
  let self :=
    set_login_attempts {[ "alice" := {| count := 3; time := 0 |} ]}
      auth_with_alice_authorized in
  fst (authenticate self (alice_login "Tr0ub4dor&3") 601000000 601000001) = Some "alice"
  /\ login_attempts (snd (authenticate self (alice_login "Tr0ub4dor&3") 601000000
                            601000001)) !! "alice" = None.
Proof.
  intros self.
  assert (Hw := @authenticate_after_window host self (alice_login "Tr0ub4dor&3")
                  601000000 601000001 (authorized alice) {| count := 3; time := 0 |}
                  ltac:(vm_compute; reflexivity) ltac:(vm_compute; reflexivity)
                  ltac:(vm_compute; split; congruence) ltac:(vm_compute; congruence)
                  ltac:(reflexivity) ltac:(vm_compute; reflexivity) ltac:(reflexivity)).
  by_instance Hw.
Defined.

Lemma create_user_signup_disabled_witness :
  create_user auth_closed "Bob" "Tr0ub4dor&3" bob_form "salt" "GEZDGNBVGY3TQOJQ" 0
  = (Return None, auth_closed).
Proof.
  apply (@create_user_signup_disabled host auth_closed "Bob" "Tr0ub4dor&3" bob_form "salt"
           "GEZDGNBVGY3TQOJQ" 0).
  reflexivity.
Defined.






Lemma confirm_then_replay_witness :
  let self := set_db {[ "alice" := alice ]} auth_mail in
  let self' := set_db (<["alice" := authorized alice]> (db self)) self in
  let slug := sign_object "0123456789abcdef"
                {| p_username := "alice"; p_expire := isoformat 900000000 |} in
  AuthorizeHandler_get self slug 1000 = (Return "alice has been authorized", self')
  /\ AuthorizeHandler_get self' slug 2000 = (Return "alice was already authorized", self').
Proof.
  intros self self' slug.
  apply (@confirm_then_replay host self slug 1000 2000
           {| d_username := "alice"; d_expire := 900000000 |}
           (endswith "@my-domain.com") alice);
    try (vm_compute; reflexivity).
  lia.
Defined.

Lemma signup_then_confirm_witness :
  exists token,
    strip_prefix "/confirm/"
      (generate_approval_url auth_mail (normalize_username "Bob") None 0) = Some token
    /\ AuthorizeHandler_get (set_db {[ "bob" := bob ]} auth_mail) token 600000000
       = (Return (normalize_username "Bob" ++ " has been authorized"),
          set_db (<[normalize_username "Bob" := authorized bob]>
                    (db (set_db {[ "bob" := bob ]} auth_mail)))
            (set_db {[ "bob" := bob ]} auth_mail)).
Proof.
  apply (@signup_then_confirm host host_laws auth_mail (set_db {[ "bob" := bob ]} auth_mail) "Bob"
           "Tr0ub4dor&3" bob_form "salt" "GEZDGNBVGY3TQOJQ" 0 600000000 bob
           (endswith "@my-domain.com")).
  - vm_compute. reflexivity.
  - reflexivity.
  - reflexivity.
  - vm_compute. congruence.
Defined.

Lemma change_password_of_missing_user_witness :
  ChangePasswordAdminHandler_get auth0 "ghost" = HTTPError 404
  /\ change_password auth0 "ghost" "Tr0ub4dor&3" "salt"
     = (Raise (AttributeError "'NoneType' object has no attribute 'password'"), auth0)
  /\ ChangePasswordAdminHandler_post auth0 "ghost" "Tr0ub4dor&3" "salt"
     = (Raise (AttributeError "'NoneType' object has no attribute 'password'"), auth0).
Proof.
  apply (@change_password_of_missing_user host auth0 "ghost" "Tr0ub4dor&3" "salt").
  vm_compute. reflexivity.
Defined.

Lemma keyed_by_username_preserved_witness :
  keyed_by_username
    (db (snd (create_user auth_with_alice "Bob" "Tr0ub4dor&3" bob_form "salt" "" 0))).
Proof.
  assert (Hok : keyed_by_username (db auth_with_alice)).
  { intros k u. simpl. rewrite lookup_singleton. case_decide; [|discriminate].
    intros Heq. inversion Heq; subst. reflexivity. }
  apply (proj1 (@keyed_by_username_preserved host auth_with_alice Hok)).
Defined.

Lemma discard_keeps_authorized_witness :
  DiscardHandler_get (fun s _ => s) "/hub/" auth_with_alice_authorized {[ "alice" ]} "Alice"
  = (Redirect "/hub/authorize", auth_with_alice_authorized, {[ "alice" ]}).
Proof.
  apply (@discard_keeps_authorized host (fun s _ => s) "/hub/" auth_with_alice_authorized
           {[ "alice" ]} "Alice").
  right. exists (authorized alice). split; vm_compute; reflexivity.
Defined.

Lemma discard_removes_pending_witness :
  let r := DiscardHandler_get (fun s _ => s) "/hub/" auth_with_alice {[ "alice" ]} "alice" in
  fst (fst r) = Redirect "/hub/authorize"
  /\ db (snd (fst r)) = delete (normalize_username "alice") (db auth_with_alice)
  /\ get_user (snd (fst r)) "alice" = None
  /\ snd r = ({[ "alice" ]} : gset string) ∖ {[ "alice" ]}.
Proof.
  apply (@discard_removes_pending host (fun s _ => s) "/hub/" auth_with_alice {[ "alice" ]}
           "alice" alice).
  - reflexivity.
  - vm_compute. reflexivity.
  - reflexivity.
Defined.

Lemma create_user_respects_policy_witness :
  enable_signup auth0 = true
  /\ contains_char "," (username bob) = false
  /\ contains_char " " (username bob) = false
  /\ base_validate_username (username bob) = true
  /\ minimum_password_length auth0 <= len "Tr0ub4dor&3"
  /\ (check_common_password auth0 = true -> "Tr0ub4dor&3" ∉ COMMON_PASSWORDS auth0)
  /\ email_accepted (email bob) = true.
Proof.
  apply (@create_user_respects_policy host auth0 (set_db {[ "bob" := bob ]} auth0) "Bob"
           "Tr0ub4dor&3" bob_form "salt" "GEZDGNBVGY3TQOJQ" 0 bob).
  vm_compute. reflexivity.
Defined.
